(** * Purchase-template test endpoint: receipt extraction from OCR text

    A shallow embedding of the handler of
    [POST /api/admin/purchase-templates/test] in
    [src/functions/src/index.ts] (lines 131-200), together with the parts of
    the JavaScript runtime the handler relies on: strings of UTF-16 code
    units, [String.prototype.trim], [Number] applied to a string, [String]
    applied to a parsed JSON value, truthiness, and the [RegExp] interface
    ([new RegExp], [String.prototype.match], [String.prototype.matchAll]).

    The record handed to [res.json] is the object of study; its rendering
    as JSON text, the HTTP framing, authentication and the other routes of
    the file are outside it. *)

From Stdlib Require Import List NArith ZArith Bool Ascii String DecimalString Lia.
Import ListNotations.

Set Implicit Arguments.
Set Warnings "-register-all".

(** ** JavaScript strings *)

(** A JavaScript string is a sequence of 16-bit code units. *)
Definition jsstring := list N.

Module Utf8.

(** Source literals of this file are UTF-8; [decode] turns the bytes of a
    literal into code points, [units] into UTF-16 code units. *)
Definition cont (b : N) : N := N.land b 63.

Fixpoint decode (bs : list N) : list N :=
  match bs with
  | [] => []
  | b :: r =>
      if (b <? 128)%N then b :: decode r
      else if (b <? 224)%N then
        match r with
        | b1 :: r1 => (N.land b 31 * 64 + cont b1)%N :: decode r1
        | [] => [65533%N]
        end
      else if (b <? 240)%N then
        match r with
        | b1 :: b2 :: r2 =>
            (N.land b 15 * 4096 + cont b1 * 64 + cont b2)%N :: decode r2
        | _ => [65533%N]
        end
      else
        match r with
        | b1 :: b2 :: b3 :: r3 =>
            (N.land b 7 * 262144 + cont b1 * 4096 + cont b2 * 64 + cont b3)%N
              :: decode r3
        | _ => [65533%N]
        end
  end.

Definition units (cp : N) : list N :=
  if (cp <? 65536)%N then [cp]
  else
    let v := (cp - 65536)%N in
    [(55296 + N.shiftr v 10)%N; (56320 + N.land v 1023)%N].

End Utf8.

(** [js "..."] is the JavaScript string written by the literal. *)
Definition js (s : string) : jsstring :=
  flat_map Utf8.units
    (Utf8.decode (map N_of_ascii (list_ascii_of_string s))).

Fixpoint jseq (a b : jsstring) : bool :=
  match a, b with
  | [], [] => true
  | x :: a', y :: b' => (x =? y)%N && jseq a' b'
  | _, _ => false
  end.

Definition isEmpty (s : jsstring) : bool :=
  match s with [] => true | _ => false end.

(** WhiteSpace and LineTerminator code units (ECMA-262 12.2 and 12.3): the
    set removed by [trim], skipped by [Number] and matched by [\s]. *)
Definition isLineTerminator (c : N) : bool :=
  ((c =? 10) || (c =? 13) || (c =? 8232) || (c =? 8233))%N.

Definition isWhiteSpace (c : N) : bool :=
  ((c =? 9) || (c =? 11) || (c =? 12) || (c =? 32) || (c =? 160)
   || (c =? 5760) || ((8192 <=? c) && (c <=? 8202)) || (c =? 8239)
   || (c =? 8287) || (c =? 12288) || (c =? 65279))%N.

Definition isSpace (c : N) : bool := isWhiteSpace c || isLineTerminator c.

Fixpoint trimStart (s : jsstring) : jsstring :=
  match s with
  | c :: r => if isSpace c then trimStart r else s
  | [] => []
  end.

Definition trimEnd (s : jsstring) : jsstring := rev (trimStart (rev s)).

(** [String.prototype.trim]. *)
Definition trim (s : jsstring) : jsstring := trimEnd (trimStart s).

(** ** JavaScript numbers *)

(** A Number is an IEEE 754 binary64 value.  A finite value is
    [(-1)^neg * m * 2^e], kept with [m] odd (and [m = 0], [e = 0] for the
    two zeros) so that equal values have equal representations. *)
Inductive number :=
| NaN
| Inf (neg : bool)
| Fin (neg : bool) (m : N) (e : Z).

Module Binary64.
Local Open Scope Z_scope.

(** [(p / q) / 2^e] as a fraction of integers. *)
Definition scale (p q e : Z) : Z * Z :=
  if 0 <=? e then (p, q * 2 ^ e) else (p * 2 ^ (- e), q).

(** floor (log2 (p / q)) for positive [p] and [q]. *)
Definition ilog2 (p q : Z) : Z :=
  let l := Z.log2 p - Z.log2 q in
  let '(a, b) := scale p q l in
  if a <? b then l - 1 else l.

Fixpoint odd_part (m : positive) (e : Z) : positive * Z :=
  match m with
  | xO m' => odd_part m' (e + 1)
  | _ => (m, e)
  end.

Definition normal (neg : bool) (m e : Z) : number :=
  match m with
  | Zpos p => let '(p', e') := odd_part p e in Fin neg (Npos p') e'
  | _ => Fin neg 0 0
  end.

(** The binary64 value nearest to [p / q] (ties to even), with the sign
    [neg]; [p] is non-negative and [q] positive.  53 bits of precision,
    least exponent -1074, overflow to infinity from [2^1024]. *)
Definition round (neg : bool) (p q : Z) : number :=
  if p <=? 0 then Fin neg 0 0
  else
    let e := Z.max (ilog2 p q - 52) (-1074) in
    let '(a, b) := scale p q e in
    let m0 := a / b in
    let r := a mod b in
    let m :=
      if 2 * r <? b then m0
      else if b <? 2 * r then m0 + 1
      else if Z.even m0 then m0 else m0 + 1 in
    if (971 <? e) || ((e =? 971) && (m =? 2 ^ 53)) then Inf neg
    else normal neg m e.

(** The Number value of the decimal [m * 10^d]. *)
Definition decimal (neg : bool) (m : N) (d : Z) : number :=
  if 0 <=? d then round neg (Z.of_N m * 10 ^ d) 1
  else round neg (Z.of_N m) (10 ^ (- d)).

End Binary64.

(** The Number denoted by the numeric literal [n] or [n / d]. *)
Definition num (n : N) : number := Binary64.round false (Z.of_N n) 1.
Definition frac (n d : positive) : number :=
  Binary64.round false (Zpos n) (Zpos d).

Definition zero : number := Fin false 0 0.

(** ToBoolean on a Number: NaN, +0 and -0 are falsy. *)
Definition numTruthy (x : number) : bool :=
  match x with
  | NaN => false
  | Inf _ => true
  | Fin _ m _ => negb (m =? 0)%N
  end.

(** [0 <= x] and [0 < x] as JavaScript compares them (false on NaN). *)
Definition nonNegative (x : number) : bool :=
  match x with
  | NaN => false
  | Inf neg => negb neg
  | Fin neg m _ => negb neg || (m =? 0)%N
  end.

Definition positiveNumber (x : number) : bool :=
  match x with
  | NaN => false
  | Inf neg => negb neg
  | Fin neg m _ => negb neg && negb (m =? 0)%N
  end.

(** *** [Number] applied to a string (ECMA-262 7.1.4.1.1, StringToNumber) *)

Module StringNumericLiteral.

Definition digitOf (base c : N) : option N :=
  let d :=
    if ((48 <=? c) && (c <=? 57))%N then Some (c - 48)%N
    else if ((97 <=? c) && (c <=? 102))%N then Some (c - 87)%N
    else if ((65 <=? c) && (c <=? 70))%N then Some (c - 55)%N
    else None in
  match d with
  | Some v => if (v <? base)%N then Some v else None
  | None => None
  end.

(** Reads the longest run of digits: the accumulated value, the number of
    digits read, and the rest of the string. *)
Fixpoint digits (base : N) (s : jsstring) (acc : N) (cnt : nat)
  : N * nat * jsstring :=
  match s with
  | c :: r =>
      match digitOf base c with
      | Some d => digits base r (acc * base + d)%N (S cnt)
      | None => (acc, cnt, s)
      end
  | [] => (acc, cnt, [])
  end.

(** A whole string of one or more digits in [base]. *)
Definition integer (base : N) (s : jsstring) : option N :=
  match digits base s 0 0 with
  | (v, S _, []) => Some v
  | _ => None
  end.

(** ExponentPart, or nothing: [e] or [E], an optional sign, digits. *)
Definition exponent (s : jsstring) : option Z :=
  match s with
  | [] => Some 0%Z
  | c :: r =>
      if ((c =? 101) || (c =? 69))%N then
        match r with
        | sg :: r' =>
            if (sg =? 45)%N
            then option_map (fun v => (- Z.of_N v)%Z) (integer 10 r')
            else if (sg =? 43)%N then option_map Z.of_N (integer 10 r')
            else option_map Z.of_N (integer 10 r)
        | [] => None
        end
      else None
  end.

(** The digits after the dot, if there is one, continue the integer
    part [ip]. *)
Definition fraction (ip : N) (s : jsstring) : N * nat * jsstring :=
  match s with
  | c :: r => if (c =? 46)%N then digits 10 r ip 0 else (ip, 0%nat, s)
  | [] => (ip, 0%nat, s)
  end.

(** StrUnsignedDecimalLiteral with the sign already read. *)
Definition unsignedDecimal (neg : bool) (s : jsstring) : number :=
  if jseq s (js "Infinity") then Inf neg
  else
    let '(ip, ni, r1) := digits 10 s 0 0 in
    let '(m, nf, r2) := fraction ip r1 in
    match (ni + nf)%nat with
    | O => NaN
    | S _ =>
        match exponent r2 with
        | Some ex => Binary64.decimal neg m (ex - Z.of_nat nf)
        | None => NaN
        end
    end.

(** NonDecimalIntegerLiteral: [0x], [0o] or [0b] and digits, no sign. *)
Definition nonDecimal (s : jsstring) : option number :=
  match s with
  | c :: p :: r =>
      let base :=
        if negb (c =? 48)%N then None
        else if ((p =? 120) || (p =? 88))%N then Some 16%N
        else if ((p =? 111) || (p =? 79))%N then Some 8%N
        else if ((p =? 98) || (p =? 66))%N then Some 2%N
        else None in
      match base with
      | Some b => option_map num (integer b r)
      | None => None
      end
  | _ => None
  end.

End StringNumericLiteral.

(** [Number(s)] for a string [s]. *)
Definition Number (s : jsstring) : number :=
  let t := trim s in
  match t with
  | [] => zero
  | c :: r =>
      if (c =? 45)%N then StringNumericLiteral.unsignedDecimal true r
      else if (c =? 43)%N then StringNumericLiteral.unsignedDecimal false r
      else
        match StringNumericLiteral.nonDecimal t with
        | Some x => x
        | None => StringNumericLiteral.unsignedDecimal false t
        end
  end.

(** *** [String] applied to a Number (ECMA-262 6.1.6.1.20, Number::toString) *)

Module NumberToString.
Local Open Scope Z_scope.

(** [p / q < 10^n] *)
Definition below (p q n : Z) : bool :=
  if 0 <=? n then p <? q * 10 ^ n else p * 10 ^ (- n) <? q.

(** The [n] with [10^(n-1) <= p / q < 10^n], searched upwards from [n];
    the positive finite values lie between [10^-324] and [10^309]. *)
Fixpoint magnitude (fuel : nat) (p q n : Z) : Z :=
  match fuel with
  | O => n
  | S f => if below p q n then n else magnitude f p q (n + 1)
  end.

(** The decimal [s * 10^(n-k)] with [k] digits nearest to [p / q], when it
    reads back as [x]: of the [k]-digit decimals below and above [p / q],
    those that round to [x], the nearer one first, the even one on a
    tie.  A decimal that reaches [10^n] is written [10^(k-1) * 10^(n+1-k)]. *)
Definition shortest (x : number) (p q n : Z) (k : nat) : option (Z * Z) :=
  let d := n - Z.of_nat k in
  let '(a, b) := if 0 <=? d then (p, q * 10 ^ d) else (p * 10 ^ (- d), q) in
  let lo := a / b in
  let r := a mod b in
  let hi := if r =? 0 then lo else lo + 1 in
  let reads s := match Binary64.decimal false (Z.to_N s) d with
                 | Fin false m e => match x with
                                    | Fin _ m' e' => (m =? m')%N && (e =? e')
                                    | _ => false
                                    end
                 | _ => false
                 end in
  let okLo := (10 ^ (Z.of_nat k - 1) <=? lo) && reads lo in
  let okHi := reads hi in
  let pickHi :=
    if hi =? 10 ^ Z.of_nat k then (10 ^ (Z.of_nat k - 1), n + 1) else (hi, n) in
  match okLo, okHi with
  | true, true =>
      if 2 * r <? b then Some (lo, n)
      else if b <? 2 * r then Some pickHi
      else if Z.even lo then Some (lo, n) else Some pickHi
  | true, false => Some (lo, n)
  | false, true => Some pickHi
  | false, false => None
  end.

(** The least number of digits [k] that reads back as [x], with its digits
    [s] and exponent [n]; 17 digits always do. *)
Fixpoint shortestDigits (fuel : nat) (x : number) (p q n : Z) (k : nat)
  : Z * Z * nat :=
  match shortest x p q n k, fuel with
  | Some (s, n'), _ => (s, n', k)
  | None, S f => shortestDigits f x p q n (S k)
  | None, O => (0, n, k)
  end.

Definition decimalString (z : Z) : jsstring :=
  js (NilEmpty.string_of_uint (N.to_uint (Z.to_N z))).

Definition zeros (n : Z) : jsstring := repeat 48%N (Z.to_nat n).

(** Steps 6 to 12: the digits laid out in fixed or exponential notation. *)
Definition layout (s n : Z) (k : nat) : jsstring :=
  let ds := decimalString s in
  if (Z.of_nat k <=? n) && (n <=? 21) then (ds ++ zeros (n - Z.of_nat k))%list
  else if (0 <? n) && (n <=? 21) then
    (firstn (Z.to_nat n) ds ++ 46%N :: skipn (Z.to_nat n) ds)%list
  else if (-6 <? n) && (n <=? 0) then
    (js "0." ++ zeros (- n) ++ ds)%list
  else
    let ex := n - 1 in
    let tail :=
      (101%N :: (if ex <? 0 then 45%N else 43%N) :: decimalString (Z.abs ex))
    in
    match ds with
    | c :: (_ :: _) as r => (c :: 46%N :: r ++ tail)%list
    | _ => (ds ++ tail)%list
    end.

Definition positive (m : N) (e : Z) : jsstring :=
  let '(p, q) := if 0 <=? e then (Z.of_N m * 2 ^ e, 1)
                 else (Z.of_N m, 2 ^ (- e)) in
  let n := magnitude 640 p q (-324) in
  let '(s, n', k) := shortestDigits 17 (Fin false m e) p q n 1 in
  layout s n' k.

End NumberToString.

(** [String(x)] for a Number [x]. *)
Definition Number_toString (x : number) : jsstring :=
  match x with
  | NaN => js "NaN"
  | Inf false => js "Infinity"
  | Inf true => js "-Infinity"
  | Fin _ 0%N _ => js "0"
  | Fin false m e => NumberToString.positive m e
  | Fin true m e => 45%N :: NumberToString.positive m e
  end.

(** ** JSON values of the request body *)

(** [req.body] as left by [express.json()]: a parsed JSON document, or an
    empty object when there was none. *)
Inductive value :=
| VUndefined
| VNull
| VBool (b : bool)
| VNum (x : number)
| VStr (s : jsstring)
| VArr (elems : list value)
| VObj (fields : list (jsstring * value)).

(** ToBoolean. *)
Definition truthy (v : value) : bool :=
  match v with
  | VUndefined | VNull | VBool false | VStr [] => false
  | VNum x => numTruthy x
  | _ => true
  end.

(** Own property of a parsed object; a key written twice keeps its last
    value, as [JSON.parse] does. *)
Fixpoint lookup (k : jsstring) (fs : list (jsstring * value)) : option value :=
  match fs with
  | [] => None
  | (k', v) :: r =>
      match lookup k r with
      | Some v' => Some v'
      | None => if jseq k k' then Some v else None
      end
  end.

(** [v.k] for the property names the handler reads ([text], [template] and
    the five [...Regex] names), none of which exists on a prototype: only a
    parsed object can have them.  The handler never reads a property of
    [null] or [undefined]. *)
Definition get (v : value) (k : string) : value :=
  match v with
  | VObj fs => match lookup (js k) fs with Some x => x | None => VUndefined end
  | _ => VUndefined
  end.

(** [String(v)]; [None] is a thrown TypeError.  An array joins its elements
    with a comma, [null] and [undefined] elements giving the empty string.
    A parsed object prints as [[object Object]], unless it has an own
    [toString] property: that is never callable, and
    [Object.prototype.valueOf] returns no primitive, so the conversion
    throws. *)
Fixpoint ToString (v : value) : option jsstring :=
  match v with
  | VUndefined => Some (js "undefined")
  | VNull => Some (js "null")
  | VBool true => Some (js "true")
  | VBool false => Some (js "false")
  | VNum x => Some (Number_toString x)
  | VStr s => Some s
  | VArr l =>
      (fix join (l : list value) : option jsstring :=
         match l with
         | [] => Some []
         | x :: r =>
             let elem :=
               match x with
               | VUndefined | VNull => Some []
               | _ => ToString x
               end in
             match elem, r with
             | None, _ => None
             | Some s, [] => Some s
             | Some s, _ :: _ =>
                 match join r with
                 | Some t => Some (s ++ 44%N :: t)
                 | None => None
                 end
             end
         end) l
  | VObj fs =>
      match lookup (js "toString") fs with
      | Some _ => None
      | None => Some (js "[object Object]")
      end
  end.

(** ** The regular-expression interface *)

(** The array returned by a successful match: [whole] is element 0,
    [captures] are elements 1, 2, ... ([None] for a group that did not
    take part), [groups] is the [groups] property, [undefined] when the
    pattern has no named group. *)
Record MatchResult := {
  whole : jsstring;
  captures : list (option jsstring);
  groups : option (list (jsstring * option jsstring))
}.

(** [m[i]]; [None] is [undefined]. *)
Definition elt (m : MatchResult) (i : nat) : option jsstring :=
  match i with
  | O => Some (whole m)
  | S j => match nth_error (captures m) j with Some c => c | None => None end
  end.

(** What the handler uses of the runtime's RegExp:
    [new RegExp(pattern, flags)], [None] when it throws;
    [text.match(re)] for an [re] built without [g];
    [Array.from(text.matchAll(re))] for an [re] built with [g]. *)
Class RegExpEngine := {
  RegExp : Type;
  RegExp_new : jsstring -> jsstring -> option RegExp;
  String_match : jsstring -> RegExp -> option MatchResult;
  String_matchAll : jsstring -> RegExp -> list MatchResult
}.

(** ** The handler *)

Record LineItem := {
  productName : jsstring;
  qty : number;
  unit : jsstring;
  price : number
}.

(** The object [out]; [None] in [subtotal] and [total] is [null]. *)
Record Parsed := {
  raw : jsstring;
  vendorName : jsstring;
  purchaseDate : jsstring;
  subtotal : option number;
  total : option number;
  items : list LineItem
}.

Definition set_vendorName (o : Parsed) (v : jsstring) : Parsed :=
  {| raw := raw o; vendorName := v; purchaseDate := purchaseDate o;
     subtotal := subtotal o; total := total o; items := items o |}.
Definition set_purchaseDate (o : Parsed) (v : jsstring) : Parsed :=
  {| raw := raw o; vendorName := vendorName o; purchaseDate := v;
     subtotal := subtotal o; total := total o; items := items o |}.
Definition set_subtotal (o : Parsed) (v : option number) : Parsed :=
  {| raw := raw o; vendorName := vendorName o; purchaseDate := purchaseDate o;
     subtotal := v; total := total o; items := items o |}.
Definition set_total (o : Parsed) (v : option number) : Parsed :=
  {| raw := raw o; vendorName := vendorName o; purchaseDate := purchaseDate o;
     subtotal := subtotal o; total := v; items := items o |}.
Definition push_item (o : Parsed) (it : LineItem) : Parsed :=
  {| raw := raw o; vendorName := vendorName o; purchaseDate := purchaseDate o;
     subtotal := subtotal o; total := total o; items := items o ++ [it] |}.

(** The three responses of the route: [200 {parsed: out}],
    [400 {error: 'text required to test template'}] and
    [500 {error: 'template test failed', details}]. *)
Inductive response :=
| Ok200 (parsed : Parsed)
| Err400
| Err500.

(** [a || b] on possibly undefined strings keeps [a] when it is a non-empty
    string: [pick a] is [a] when it is truthy. *)
Definition pick (a : option jsstring) : option jsstring :=
  match a with
  | Some (c :: r) => Some (c :: r)
  | _ => None
  end.

(** [a || b || ''] *)
Definition orStr (a b : option jsstring) : jsstring :=
  match pick a with
  | Some s => s
  | None => match pick b with Some s => s | None => [] end
  end.

Definition isDigit (c : N) : bool := ((48 <=? c) && (c <=? 57))%N.

(** [.replace(/[^0-9\.\,]/g, '').replace(/,/g, '')] *)
Definition stripNumeric (s : jsstring) : jsstring :=
  filter (fun c => negb (c =? 44)%N)
    (filter (fun c => isDigit c || (c =? 46)%N || (c =? 44)%N) s).

(** [x || null] and [x || 0] on a Number. *)
Definition orNull (x : number) : option number :=
  if numTruthy x then Some x else None.
Definition orZero (x : number) : number :=
  if numTruthy x then x else zero.

(** Lines 163-164 on the candidate string [c]:
    [Number(c.toString().replace(...).replace(...)) || null]. *)
Definition numberOrNull (c : jsstring) : option number :=
  orNull (Number (stripNumeric c)).

Section Handler.

Context {engine : RegExpEngine}.

(** Lines 137-140. *)
Definition build (src : value) (flags : string) : option RegExp :=
  if negb (truthy src) then None
  else
    match ToString src with
    | Some pattern =>
        RegExp_new pattern (if isEmpty (js flags) then js "im" else js flags)
    | None => None
    end.

(** Line 152. *)
Definition vendorOf (m : option MatchResult) : jsstring :=
  match m with
  | Some r =>
      match pick (elt r 1) with
      | Some g1 => trim g1
      | None =>
          match pick (elt r 0) with
          | Some g0 => trim g0
          | None => []
          end
      end
  | None => []
  end.

(** Line 157. *)
Definition dateOf (m : option MatchResult) : jsstring :=
  match m with
  | Some r => whole r
  | None => []
  end.

(** Lines 163-164 and 170-171. *)
Definition amountOf (r : MatchResult) : option number :=
  numberOrNull (orStr (elt r 1) (elt r 0)).

(** [g.k] on [mm.groups || {}]. *)
Definition named (mm : MatchResult) (k : string) : option jsstring :=
  match groups mm with
  | Some g =>
      match find (fun kv => jseq (js k) (fst kv)) g with
      | Some (_, v) => v
      | None => None
      end
  | None => None
  end.

(** Line 179: the test that selects the named-capture branch. *)
Definition usesNamed (mm : MatchResult) : bool :=
  match pick (named mm "name"), pick (named mm "product"),
        pick (named mm "qty"), pick (named mm "price") with
  | None, None, None, None => false
  | _, _, _, _ => true
  end.

(** [Number(a || b || 0) || 0] *)
Definition quantityOf (a b : option jsstring) : number :=
  match pick a with
  | Some s => orZero (Number s)
  | None =>
      match pick b with
      | Some s => orZero (Number s)
      | None => orZero zero
      end
  end.

(** [Number((a || '').toString().replace(...).replace(...)) || 0] *)
Definition priceOf (a : option jsstring) : number :=
  orZero (Number (stripNumeric (orStr a None))).

(** Line 185: the captures that took part in the match. *)
Definition definedCaptures (mm : MatchResult) : list jsstring :=
  flat_map (fun c => match c with Some s => [s] | None => [] end)
    (captures mm).

(** Lines 178-191: the line item pushed for one match. *)
Definition itemOf (mm : MatchResult) : LineItem :=
  if usesNamed mm then
    {| productName := trim (orStr (named mm "name") (named mm "product"));
       qty := quantityOf (named mm "qty") (named mm "quantity");
       unit := orStr (named mm "unit") None;
       price := priceOf (named mm "price") |}
  else
    let cap := definedCaptures mm in
    {| productName := trim (orStr (nth_error cap 0) None);
       qty := quantityOf (nth_error cap 1) None;
       unit := orStr (nth_error cap 2) None;
       price := priceOf (nth_error cap 3) |}.

(** Lines 137-193: the record built from the template and the text. *)
Definition extract (tpl : value) (text : jsstring) : Parsed :=
  let vendorRe := build (get tpl "vendorRegex") "im" in
  let dateRe := build (get tpl "dateRegex") "im" in
  let totalRe := build (get tpl "totalRegex") "im" in
  let subtotalRe := build (get tpl "subtotalRegex") "im" in
  let itemsRe := build (get tpl "itemsRegex") "gim" in
  let out :=
    {| raw := text; vendorName := []; purchaseDate := [];
       subtotal := None; total := None; items := [] |} in
  let out :=
    match vendorRe with
    | Some re => set_vendorName out (vendorOf (String_match text re))
    | None => out
    end in
  let out :=
    match dateRe with
    | Some re => set_purchaseDate out (dateOf (String_match text re))
    | None => out
    end in
  let out :=
    match totalRe with
    | Some re =>
        match String_match text re with
        | Some m => set_total out (amountOf m)
        | None => out
        end
    | None => out
    end in
  let out :=
    match subtotalRe with
    | Some re =>
        match String_match text re with
        | Some m => set_subtotal out (amountOf m)
        | None => out
        end
    | None => out
    end in
  match itemsRe with
  | Some re =>
      fold_left (fun o mm => push_item o (itemOf mm))
        (String_matchAll text re) out
  | None => out
  end.

(** Line 133. *)
Definition templateOf (body : value) : value :=
  if truthy body && truthy (get body "template") then get body "template"
  else if truthy body then body else VObj [].

(** Line 134; [None] when [String] throws. *)
Definition textOf (body : value) : option jsstring :=
  if truthy body && truthy (get body "text") then ToString (get body "text")
  else Some [].

(** Lines 131-200.  Everything runs inside [try]: an exception thrown by
    [String(req.body.text)] is answered with 500. *)
Definition handler (body : value) : response :=
  let tpl := templateOf body in
  match textOf body with
  | None => Err500
  | Some text =>
      if isEmpty text then Err400
      else Ok200 (extract tpl text)
  end.

End Handler.

(** ** A regular-expression engine for a fragment of ECMAScript patterns

    The runtime's RegExp is not part of the repository.  The statements
    that hold for every template are proved for an arbitrary
    [RegExpEngine]; the scenarios with concrete patterns are evaluated on
    the engine below, which follows the backtracking semantics of ECMA-262
    (22.2.2) on this fragment, without the [u] flag:

    - alternation, concatenation, capturing, non-capturing and named
      groups;
    - the quantifiers [*], [+], [?] and their lazy forms;
    - [^], [$], [\b], [\B], [.], classes with ranges, and the escapes
      [\d \D \s \S \w \W \t \n \v \f \r] and escaped punctuation;
    - the flags [g], [i] and [m].

    [compile] tells a pattern that ECMAScript rejects ([SyntaxError]) from
    one that is outside the fragment ([Unsupported]): braces, look-around,
    back-references, other escapes, other flags, and, under [i], a
    non-ASCII pattern character that may have a case mapping. *)
Module JSRegExp.

Inductive classItem :=
| CChar (c : N)
| CRange (lo hi : N)
| CDigit (neg : bool)
| CSpace (neg : bool)
| CWord (neg : bool).

Inductive quantifier := QStar | QPlus | QOpt.

(** [Group i] is the capturing group number [i + 1].  A quantified term
    records the groups it contains, [count] of them from [first]. *)
Inductive node :=
| Empty
| Char (c : N)
| CharSet (invert : bool) (members : list classItem)
| LineStart
| LineEnd
| WordBoundary (neg : bool)
| Seq (a b : node)
| Alt (a b : node)
| Group (index : nat) (body : node)
| Quant (q : quantifier) (greedy : bool) (first count : nat) (body : node).

Record regex := {
  ignoreCase : bool;
  multiline : bool;
  global : bool;
  root : node;
  nGroups : nat;
  groupNames : list (jsstring * nat)
}.

Inductive result (A : Type) :=
| Compiled (a : A)
| SyntaxError
| Unsupported.
Arguments SyntaxError {A}.
Arguments Unsupported {A}.

Definition bind {A B} (r : result A) (f : A -> result B) : result B :=
  match r with
  | Compiled a => f a
  | SyntaxError => SyntaxError
  | Unsupported => Unsupported
  end.

Notation "'do' x <- r ; k" := (bind r (fun x => k))
  (at level 10, x pattern, r at level 100, k at level 200).

(** *** Parsing *)

Definition asciiOf (c : N) : option ascii :=
  if (c <? 128)%N then Some (ascii_of_N c) else None.

Definition isAlpha (c : N) : bool :=
  (((65 <=? c) && (c <=? 90)) || ((97 <=? c) && (c <=? 122)))%N.

Definition isWordChar (c : N) : bool :=
  isAlpha c || isDigit c || (c =? 95)%N.

(** Code units of the Currency Symbols block, none of which has a case
    mapping. *)
Definition caseless (c : N) : bool := ((8352 <=? c) && (c <=? 8399))%N.

(** A character of the pattern standing for itself. *)
Definition literal (ic : bool) (c : N) : result N :=
  if (c <? 128)%N || negb ic || caseless c then Compiled c else Unsupported.

Definition lineTerminators : list classItem :=
  [CChar 10; CChar 13; CChar 8232; CChar 8233].

(** The character after a backslash, outside or inside a class. *)
Definition escape (ic inClass : bool) (e : N) : result classItem :=
  match asciiOf e with
  | Some "d"%char => Compiled (CDigit false)
  | Some "D"%char => Compiled (CDigit true)
  | Some "s"%char => Compiled (CSpace false)
  | Some "S"%char => Compiled (CSpace true)
  | Some "w"%char => Compiled (CWord false)
  | Some "W"%char => Compiled (CWord true)
  | Some "t"%char => Compiled (CChar 9)
  | Some "n"%char => Compiled (CChar 10)
  | Some "v"%char => Compiled (CChar 11)
  | Some "f"%char => Compiled (CChar 12)
  | Some "r"%char => Compiled (CChar 13)
  | Some "b"%char => if inClass then Compiled (CChar 8) else Unsupported
  | Some _ => if isWordChar e then Unsupported else Compiled (CChar e)
  | None => Unsupported
  end.

Definition classAtom (ic : bool) (s : jsstring)
  : result (classItem * jsstring) :=
  match s with
  | [] => SyntaxError
  | 92%N :: [] => SyntaxError
  | 92%N :: e :: r => do a <- escape ic true e; Compiled (a, r)
  | c :: r => do a <- literal ic c; Compiled (CChar a, r)
  end.

(** The members of a class, up to and including the closing bracket. *)
Fixpoint classItems (n : nat) (ic : bool) (s : jsstring)
  (acc : list classItem) : result (list classItem * jsstring) :=
  match n with
  | O => Unsupported
  | S n' =>
      match s with
      | [] => SyntaxError
      | 93%N :: r => Compiled (rev acc, r)
      | _ =>
          do (a, s1) <- classAtom ic s;
          match s1 with
          | 45%N :: ((c2 :: _) as s2) =>
              if (c2 =? 93)%N then classItems n' ic s1 (a :: acc)
              else
                do (b, s3) <- classAtom ic s2;
                match a, b with
                | CChar lo, CChar hi =>
                    if (hi <? lo)%N then SyntaxError
                    else if ((lo <? 128) && (hi <? 128))%N
                    then classItems n' ic s3 (CRange lo hi :: acc)
                    else Unsupported
                | _, _ => Unsupported
                end
          | _ => classItems n' ic s1 (a :: acc)
          end
      end
  end.

Record pstate := { nextGroup : nat; names : list (jsstring * nat) }.

Definition isIdStart (c : N) : bool :=
  isAlpha c || (c =? 95)%N || (c =? 36)%N.
Definition isIdPart (c : N) : bool := isIdStart c || isDigit c.

(** A group name up to the closing [>]. *)
Fixpoint groupName (s : jsstring) (acc : jsstring)
  : result (jsstring * jsstring) :=
  match s with
  | [] => SyntaxError
  | c :: r =>
      if (c =? 62)%N then
        match acc with
        | [] => SyntaxError
        | _ => Compiled (rev acc, r)
        end
      else if (128 <=? c)%N || (c =? 92)%N then Unsupported
      else if (match acc with [] => isIdStart c | _ => isIdPart c end)
      then groupName r (c :: acc)
      else SyntaxError
  end.

Definition hasName (nm : jsstring) (l : list (jsstring * nat)) : bool :=
  existsb (fun kv => jseq nm (fst kv)) l.

(** What follows an atom: a quantifier, possibly lazy, or nothing. *)
Definition quantified (a : node) (first : nat) (s : jsstring)
  (st : pstate) : result (node * jsstring * pstate) :=
  let q :=
    match s with
    | 42%N :: r => Some (QStar, r)
    | 43%N :: r => Some (QPlus, r)
    | 63%N :: r => Some (QOpt, r)
    | _ => None
    end in
  match q with
  | Some (k, 63%N :: r) =>
      Compiled (Quant k false first (nextGroup st - first) a, r, st)
  | Some (k, r) =>
      Compiled (Quant k true first (nextGroup st - first) a, r, st)
  | None => Compiled (a, s, st)
  end.

Definition closing (s : jsstring) : result jsstring :=
  match s with
  | 41%N :: r => Compiled r
  | _ => SyntaxError
  end.

Section Term.

Variable ic : bool.
(** The parser of the inside of a group. *)
Variable inner : jsstring -> pstate -> result (node * jsstring * pstate).

Definition capturing (name : option jsstring) (s : jsstring)
  (st : pstate) : result (node * jsstring * pstate) :=
  let i := nextGroup st in
  let st' :=
    {| nextGroup := S i;
       names := match name with
                | Some nm => names st ++ [(nm, i)]
                | None => names st
                end |} in
  do (a, s1, st1) <- inner s st';
  do s2 <- closing s1;
  quantified (Group i a) i s2 st1.

Definition group (s : jsstring) (st : pstate)
  : result (node * jsstring * pstate) :=
  match s with
  | 63%N :: 58%N :: r =>
      do (a, s1, st1) <- inner r st;
      do s2 <- closing s1;
      quantified a (nextGroup st) s2 st1
  | 63%N :: 60%N :: r =>
      match r with
      | 61%N :: _ | 33%N :: _ => Unsupported
      | _ =>
          do (nm, r') <- groupName r [];
          if hasName nm (names st) then SyntaxError
          else capturing (Some nm) r' st
      end
  | 63%N :: 61%N :: _ | 63%N :: 33%N :: _ => Unsupported
  | 63%N :: _ => SyntaxError
  | _ => capturing None s st
  end.

Definition term (s : jsstring) (st : pstate)
  : result (node * jsstring * pstate) :=
  match s with
  | [] => SyntaxError
  | c :: r =>
      match asciiOf c with
      | Some "^"%char => Compiled (LineStart, r, st)
      | Some "$"%char => Compiled (LineEnd, r, st)
      | Some "."%char =>
          quantified (CharSet true lineTerminators) (nextGroup st) r st
      | Some "("%char => group r st
      | Some "["%char =>
          let '(inv, r1) :=
            match r with
            | 94%N :: r' => (true, r')
            | _ => (false, r)
            end in
          do (ms, r2) <- classItems (S (List.length r1)) ic r1 [];
          quantified (CharSet inv ms) (nextGroup st) r2 st
      | Some "\"%char =>
          match r with
          | [] => SyntaxError
          | e :: r' =>
              if (e =? 98)%N then Compiled (WordBoundary false, r', st)
              else if (e =? 66)%N
              then Compiled (WordBoundary true, r', st)
              else
                do a <- escape ic false e;
                quantified
                  match a with
                  | CChar x => Char x
                  | _ => CharSet false [a]
                  end (nextGroup st) r' st
          end
      | Some "*"%char | Some "+"%char | Some "?"%char
      | Some ")"%char | Some "|"%char => SyntaxError
      | Some "{"%char | Some "}"%char | Some "]"%char => Unsupported
      | _ => do a <- literal ic c; quantified (Char a) (nextGroup st) r st
      end
  end.

(** Terms up to the end of the pattern, a bar or a closing bracket. *)
Fixpoint alternative (n : nat) (s : jsstring) (st : pstate)
  : result (node * jsstring * pstate) :=
  match n with
  | O => Unsupported
  | S n' =>
      match s with
      | [] | 124%N :: _ | 41%N :: _ => Compiled (Empty, s, st)
      | _ =>
          do (a, s1, st1) <- term s st;
          do (b, s2, st2) <- alternative n' s1 st1;
          Compiled (match b with Empty => a | _ => Seq a b end, s2, st2)
      end
  end.

End Term.

Fixpoint disjunction (fuel : nat) (ic : bool) (s : jsstring) (st : pstate)
  : result (node * jsstring * pstate) :=
  match fuel with
  | O => Unsupported
  | S f =>
      do (a, s1, st1) <-
        alternative ic (disjunction f ic) (S (List.length s)) s st;
      match s1 with
      | 124%N :: s2 =>
          do (b, s3, st3) <- disjunction f ic s2 st1;
          Compiled (Alt a b, s3, st3)
      | _ => Compiled (a, s1, st1)
      end
  end.

Record flagSet := { fG : bool; fI : bool; fM : bool }.

Fixpoint parseFlags (s : jsstring) (seen : list N) (acc : flagSet)
  : result flagSet :=
  match s with
  | [] => Compiled acc
  | c :: r =>
      if existsb (N.eqb c) seen then SyntaxError
      else
        match asciiOf c with
        | Some "g"%char =>
            parseFlags r (c :: seen) {| fG := true; fI := fI acc; fM := fM acc |}
        | Some "i"%char =>
            parseFlags r (c :: seen) {| fG := fG acc; fI := true; fM := fM acc |}
        | Some "m"%char =>
            parseFlags r (c :: seen) {| fG := fG acc; fI := fI acc; fM := true |}
        | Some "d"%char | Some "s"%char | Some "u"%char
        | Some "v"%char | Some "y"%char => Unsupported
        | _ => SyntaxError
        end
  end.

(** [new RegExp(pattern, flags)]. *)
Definition compile (pattern flags : jsstring) : result regex :=
  do fl <- parseFlags flags [] {| fG := false; fI := false; fM := false |};
  do (a, rest, st) <-
    disjunction (S (List.length pattern)) (fI fl) pattern
      {| nextGroup := 0; names := [] |};
  match rest with
  | [] =>
      Compiled {| ignoreCase := fI fl; multiline := fM fl; global := fG fl;
                  root := a; nGroups := nextGroup st;
                  groupNames := names st |}
  | _ => SyntaxError
  end.

(** *** Matching *)

(** A position in the input: the code units before it, nearest first, the
    code units after it, and the captures so far. *)
Record mstate := {
  before : list N;
  after : list N;
  caps : list (option jsstring)
}.

Definition remaining (x : mstate) : nat := List.length (after x).

Definition advance (x : mstate) : mstate :=
  match after x with
  | c :: r => {| before := c :: before x; after := r; caps := caps x |}
  | [] => x
  end.

Fixpoint setCap (i : nat) (v : option jsstring)
  (l : list (option jsstring)) : list (option jsstring) :=
  match l, i with
  | [], _ => []
  | _ :: r, O => v :: r
  | c :: r, S j => c :: setCap j v r
  end.

Definition capture (i : nat) (x y : mstate) : mstate :=
  {| before := before y; after := after y;
     caps := setCap i (Some (firstn (remaining x - remaining y) (after x)))
               (caps y) |}.

(** The captures of the groups inside a quantified term are reset on
    entry of each iteration. *)
Definition reset (first count : nat) (x : mstate) : mstate :=
  {| before := before x; after := after x;
     caps := fold_left (fun l i => setCap i None l) (seq first count)
               (caps x) |}.

Section Matcher.

Variables ic ml : bool.

(** The code units [a] with [Canonicalize a = Canonicalize c]: under
    [i] an ASCII letter also stands for its other case. *)
Definition variants (c : N) : list N :=
  if ic then
    if ((97 <=? c) && (c <=? 122))%N then [c; (c - 32)%N]
    else if ((65 <=? c) && (c <=? 90))%N then [c; (c + 32)%N]
    else [c]
  else [c].

Definition memberMatches (c : N) (it : classItem) : bool :=
  match it with
  | CChar a => existsb (N.eqb a) (variants c)
  | CRange lo hi =>
      existsb (fun v => ((lo <=? v) && (v <=? hi))%N) (variants c)
  | CDigit neg => xorb neg (isDigit c)
  | CSpace neg => xorb neg (isSpace c)
  | CWord neg => xorb neg (isWordChar c)
  end.

Definition atLineStart (x : mstate) : bool :=
  match before x with
  | [] => true
  | p :: _ => ml && isLineTerminator p
  end.

Definition atLineEnd (x : mstate) : bool :=
  match after x with
  | [] => true
  | n :: _ => ml && isLineTerminator n
  end.

Definition atWordBoundary (x : mstate) : bool :=
  xorb (match before x with p :: _ => isWordChar p | [] => false end)
       (match after x with n :: _ => isWordChar n | [] => false end).

(** [run r x k]: match [r] at [x] and continue with [k]; the first
    success in backtracking order, as the Matcher of ECMA-262.  An
    iteration of [*] (and of the iterations of [+] after the first)
    that consumes nothing is rejected; as a match only moves forward,
    an iteration that passes this test leaves fewer code units, which
    is what the counter [n] of [star] measures. *)
Fixpoint run (r : node) (x : mstate) (k : mstate -> option mstate)
  {struct r} : option mstate :=
  match r with
  | Empty => k x
  | Char a =>
      match after x with
      | c :: _ =>
          if existsb (N.eqb a) (variants c) then k (advance x) else None
      | [] => None
      end
  | CharSet invert ms =>
      match after x with
      | c :: _ =>
          if xorb invert (existsb (memberMatches c) ms)
          then k (advance x) else None
      | [] => None
      end
  | LineStart => if atLineStart x then k x else None
  | LineEnd => if atLineEnd x then k x else None
  | WordBoundary neg => if xorb neg (atWordBoundary x) then k x else None
  | Seq a b => run a x (fun y => run b y k)
  | Alt a b =>
      match run a x k with
      | Some z => Some z
      | None => run b x k
      end
  | Group i body => run body x (fun y => k (capture i x y))
  | Quant q greedy first count body =>
      let star :=
        fix star (n : nat) (x : mstate) {struct n} : option mstate :=
          let again y :=
            if (remaining y <? remaining x)%nat then
              match n with
              | S n' => star n' y
              | O => None
              end
            else None in
          if greedy then
            match run body (reset first count x) again with
            | Some z => Some z
            | None => k x
            end
          else
            match k x with
            | Some z => Some z
            | None => run body (reset first count x) again
            end in
      match q with
      | QStar => star (remaining x) x
      | QPlus =>
          run body (reset first count x) (fun y => star (remaining y) y)
      | QOpt =>
          let once y :=
            if (remaining y =? remaining x)%nat then None else k y in
          if greedy then
            match run body (reset first count x) once with
            | Some z => Some z
            | None => k x
            end
          else
            match k x with
            | Some z => Some z
            | None => run body (reset first count x) once
            end
      end
  end.

End Matcher.

(** The array of a match that starts at [x] and ends at [y]. *)
Definition matchResult (re : regex) (x y : mstate) : MatchResult :=
  {| whole := firstn (remaining x - remaining y) (after x);
     captures := caps y;
     groups :=
       match groupNames re with
       | [] => None
       | l =>
           Some (map (fun kv =>
                        (fst kv,
                         match nth_error (caps y) (snd kv) with
                         | Some c => c
                         | None => None
                         end)) l)
       end |}.

(** The leftmost match at or after the position [(prev, rest)]: its start
    and end. *)
Fixpoint search (re : regex) (prev rest : list N)
  : option (mstate * mstate) :=
  let x := {| before := prev; after := rest;
              caps := repeat None (nGroups re) |} in
  match run (ignoreCase re) (multiline re) (root re) x Some with
  | Some y => Some (x, y)
  | None =>
      match rest with
      | c :: r => search re (c :: prev) r
      | [] => None
      end
  end.

(** [text.match(re)] for a regex without [g]. *)
Definition matchFirst (text : jsstring) (re : regex) : option MatchResult :=
  match search re [] text with
  | Some (x, y) => Some (matchResult re x y)
  | None => None
  end.

(** The successive matches of a regex with [g], each search starting
    where the previous match ended, one code unit further after an empty
    match.  There are at most [length text + 1] of them. *)
Fixpoint matchesFrom (n : nat) (re : regex) (prev rest : list N)
  : list MatchResult :=
  match n with
  | O => []
  | S n' =>
      match search re prev rest with
      | None => []
      | Some (x, y) =>
          matchResult re x y ::
            (if (remaining y =? remaining x)%nat then
               match after y with
               | c :: r => matchesFrom n' re (c :: before y) r
               | [] => []
               end
             else matchesFrom n' re (before y) (after y))
      end
  end.

(** [Array.from(text.matchAll(re))] for a regex with [g]. *)
Definition matchAll (text : jsstring) (re : regex) : list MatchResult :=
  matchesFrom (S (List.length text)) re [] text.

Definition new (pattern flags : jsstring) : option regex :=
  match compile pattern flags with
  | Compiled re => Some re
  | _ => None
  end.

End JSRegExp.

(** The engine of the fragment.  Outside the fragment [RegExp_new] answers
    as for a pattern that does not compile; nothing below evaluates it
    there. *)
#[export] Instance fragment : RegExpEngine := {|
  RegExp := JSRegExp.regex;
  RegExp_new := JSRegExp.new;
  String_match := JSRegExp.matchFirst;
  String_matchAll := JSRegExp.matchAll
|}.

(** ** What the specification says, where it is compared with the code *)

(** Section 4.4 of the specification, word for word: strip every character
    that is not a digit, a dot or a comma; remove the commas; parse the
    rest as a decimal number; not-a-number is absent. *)
Definition spec_normalizeNumber (s : jsstring) : option number :=
  let kept := filter (fun c => isDigit c || (c =? 46)%N || (c =? 44)%N) s in
  let digits := filter (fun c => negb (c =? 44)%N) kept in
  match Number digits with
  | NaN => None
  | x => Some x
  end.

(** Section 4.2, Total / Subtotal: the first capture group if present, else
    the whole match, numerically normalized. *)
Definition spec_amountOf (m : MatchResult) : option number :=
  spec_normalizeNumber
    match elt m 1 with
    | Some g1 => g1
    | None => whole m
    end.

(** Section 4.2, Vendor: the first capture group if present and non-empty
    after trimming, else the whole match trimmed. *)
Definition spec_vendorOf (m : MatchResult) : jsstring :=
  match elt m 1 with
  | Some g1 =>
      match trim g1 with
      | [] => trim (whole m)
      | t => t
      end
  | None => trim (whole m)
  end.

(** Section 4.3, positional-capture strategy: the capture groups in order
    are productName, qty, unit and price; a missing group takes its
    default; productName is trimmed, qty and price are numerically
    normalized, unit is verbatim. *)
Definition spec_positionalItem (m : MatchResult) : LineItem :=
  let grp i := match elt m (S i) with Some s => s | None => [] end in
  let number_or_zero s :=
    match spec_normalizeNumber s with Some x => x | None => zero end in
  {| productName := trim (grp 0%nat);
     qty := number_or_zero (grp 1%nat);
     unit := grp 2%nat;
     price := number_or_zero (grp 3%nat) |}.

(** Section 4.3, the choice of strategy: named when the match exposes any
    of [name], [product], [qty], [quantity], [price] or [unit]. *)
Definition spec_usesNamed (m : MatchResult) : bool :=
  match groups m with
  | Some g =>
      existsb
        (fun kv =>
           match snd kv with
           | Some _ =>
               existsb (fun k => jseq (js k) (fst kv))
                 ["name"; "product"; "qty"; "quantity"; "price"; "unit"]%string
           | None => false
           end) g
  | None => false
  end.

(** The five pattern fields of a template. *)
Inductive field := Vendor | Date | Total | Subtotal | Items.

Definition key (f : field) : string :=
  match f with
  | Vendor => "vendorRegex"
  | Date => "dateRegex"
  | Total => "totalRegex"
  | Subtotal => "subtotalRegex"
  | Items => "itemsRegex"
  end.

Definition flagsOf (f : field) : string :=
  match f with
  | Items => "gim"
  | _ => "im"
  end.

(** The field of the record that a pattern field fills is at its default. *)
Definition atDefault (f : field) (r : Parsed) : Prop :=
  match f with
  | Vendor => vendorName r = []
  | Date => purchaseDate r = []
  | Total => total r = None
  | Subtotal => subtotal r = None
  | Items => items r = []
  end.

(** The sign bit of a Number (false for NaN). *)
Definition signBit (x : number) : bool :=
  match x with
  | NaN => false
  | Inf neg => neg
  | Fin neg _ _ => neg
  end.

(** A zero has exponent 0: the two zeros are [Fin false 0 0] and
    [Fin true 0 0]. *)
Definition canonicalZero (x : number) : Prop :=
  match x with
  | Fin _ 0%N e => e = 0%Z
  | _ => True
  end.

(** The candidate string of a total: the first capture group when it is a
    non-empty string, else the whole match. *)
Definition candidate (m : MatchResult) : jsstring :=
  match elt m 1 with
  | Some (c :: s) => c :: s
  | _ => whole m
  end.

(** A number that is neither absent nor a zero. *)
Definition nonZero (o : option number) : option number :=
  match o with
  | Some x => if numTruthy x then Some x else None
  | None => None
  end.

(** ** The requests used in the scenarios *)

Definition LF : jsstring := [10%N].

Definition str (s : string) : value := VStr (js s).

(** The property [k: v] of an object literal. *)
Definition prop (k : string) (v : value) : jsstring * value := (js k, v).

(** The body [{text, template}]. *)
Definition request (text : jsstring) (template : value) : value :=
  VObj [prop "text" (VStr text); prop "template" template].

(** The array of a match, element 0 first. *)
Definition matchArray (m : MatchResult) : list (option jsstring) :=
  Some (whole m) :: captures m.

(** [new RegExp(pattern, flags).exec(text)] on the engine of the fragment:
    [None] when the pattern does not compile, [Some None] for [null]. *)
Definition exec (pattern flags text : string)
  : option (option (list (option jsstring))) :=
  option_map (fun re => option_map matchArray (String_match (js text) re))
    (RegExp_new (js pattern) (js flags)).

(** The receipt and the template of the end-to-end scenario of the
    specification (section 8, property 7). *)
Definition receipt : jsstring :=
  js "Acme Store" ++ LF ++ js "Date: 2024-01-15" ++ LF
  ++ js "Item A 2 pcs 50.00" ++ LF ++ js "Item B 1 pcs 30.00" ++ LF
  ++ js "Total: ₹130.00".

Definition receiptTemplate : value :=
  VObj [prop "vendorRegex" (str "^(.+)$");
        prop "dateRegex" (str "Date: (\S+)");
        prop "totalRegex" (str "Total:\s*[₹]?([0-9,\.]+)");
        prop "itemsRegex" (str "(\w+ \w)\s+(\d+)\s+(\w+)\s+([0-9\.]+)")].

(** The same template with an unbalanced group as [totalRegex], and with
    no [totalRegex] at all. *)
Definition brokenTotalTemplate : value :=
  VObj [prop "vendorRegex" (str "^(.+)$");
        prop "dateRegex" (str "Date: (\S+)");
        prop "totalRegex" (str "(");
        prop "itemsRegex" (str "(\w+ \w)\s+(\d+)\s+(\w+)\s+([0-9\.]+)")].

Definition noTotalTemplate : value :=
  VObj [prop "vendorRegex" (str "^(.+)$");
        prop "dateRegex" (str "Date: (\S+)");
        prop "itemsRegex" (str "(\w+ \w)\s+(\d+)\s+(\w+)\s+([0-9\.]+)")].

(** What the scenario gives on the code. *)
Definition receiptRecord : Parsed :=
  {| raw := receipt;
     vendorName := js "Acme Store";
     purchaseDate := js "Date: 2024-01-15";
     subtotal := None;
     total := Some (num 130);
     items :=
       [ {| productName := js "Item A"; qty := num 2; unit := js "pcs";
            price := num 50 |};
         {| productName := js "Item B"; qty := num 1; unit := js "pcs";
            price := num 30 |} ] |}.

(** A total of zero. *)
Definition zeroTotalRequest : value :=
  request (js "Total: 0") (VObj [prop "totalRegex" (str "Total: (\d+)")]).

(** A quantity written with a thousands separator. *)
Definition bulkRequest : value :=
  request (js "Milk 1,000 ml 20.50")
    (VObj [prop "itemsRegex" (str "(\w+) ([0-9,]+) (\w+) ([0-9.]+)")]).

(** A match whose only named captures are [quantity] and [unit]. *)
Definition quantityUnitRequest : value :=
  request (js "3 kg")
    (VObj [prop "itemsRegex" (str "(?<quantity>\d+) (?<unit>\w+)")]).

(** A vendor pattern whose first group captures white space only. *)
Definition spacedVendorRequest : value :=
  request (js "Acme  Store")
    (VObj [prop "vendorRegex" (str "Acme(\s+)Store")]).

(** ** The other routes of the file *)

(** *** Object literals with a spread (lines 109, 121, 123 and 207) *)

(** The index keys [0], [1], ... of an array or of a string. *)
Definition indexed (l : list value) : list (jsstring * value) :=
  map (fun iv => (NumberToString.decimalString (Z.of_nat (fst iv)), snd iv))
    (combine (seq 0 (List.length l)) l).

(** The own enumerable properties that [...v] copies: those of an object,
    the elements of an array, the code units of a string, and nothing for
    the other values. *)
Definition ownProperties (v : value) : list (jsstring * value) :=
  match v with
  | VObj fs => fs
  | VArr l => indexed l
  | VStr s => indexed (map (fun c => VStr [c]) s)
  | _ => []
  end.

(** [o[k]] on the properties of an object literal, a later property
    replacing an earlier one of the same name. *)
Definition property (fs : list (jsstring * value)) (k : jsstring) : value :=
  match lookup k fs with
  | Some v => v
  | None => VUndefined
  end.

(** Lines 109, 123 and 207: [{ id: d.id, ...d.data() }], the object sent for
    a stored document. *)
Definition withId (id : jsstring) (data : value) : list (jsstring * value) :=
  (js "id", VStr id) :: ownProperties data.

(** Lines 120-121: [{ ...payload, createdAt: serverTimestamp() }] with
    [payload = req.body || {}], the document stored for a purchase;
    [stamp] stands for the server-timestamp sentinel. *)
Definition purchaseDocument (body stamp : value) : list (jsstring * value) :=
  ownProperties (if truthy body then body else VObj [])
  ++ [(js "createdAt", stamp)].

(** *** Authentication (lines 78-99 and 225-237) *)

(** [s.startsWith(p)] *)
Fixpoint startsWith (s p : jsstring) {struct p} : bool :=
  match p, s with
  | [], _ => true
  | c :: p', d :: s' => (c =? d)%N && startsWith s' p'
  | _ :: _, [] => false
  end.

(** An ASCII capital letter as its small letter. *)
Definition lowerAscii (c : N) : N :=
  if ((65 <=? c) && (c <=? 90))%N then (c + 32)%N else c.

(** [s] starts with the ASCII word [p], written in small letters, in any
    letter case. *)
Fixpoint startsWithWord (s p : jsstring) {struct p} : bool :=
  match p, s with
  | [], _ => true
  | c :: p', d :: s' => (c =? lowerAscii d)%N && startsWithWord s' p'
  | _ :: _, [] => false
  end.

(** [auth.replace(/^Bearer\s+/i, '')]: the word Bearer at the very start of
    the string, in any letter case, and the white space after it, at least
    one, are removed; a string that does not start so is unchanged. *)
Definition stripBearer (auth : jsstring) : jsstring :=
  if startsWithWord auth (js "bearer") then
    match skipn 6 auth with
    | c :: r => if isSpace c then trimStart r else auth
    | [] => auth
    end
  else auth.

(** [process.env.DISABLE_AUTH === 'true'] *)
Definition authDisabled (DISABLE_AUTH : option jsstring) : bool :=
  match DISABLE_AUTH with
  | Some v => jseq v (js "true")
  | None => false
  end.

(** [(req.headers.authorization || '').toString()] *)
Definition authorizationOf (header : option jsstring) : jsstring :=
  match header with
  | Some h => h
  | None => []
  end.

(** What the middleware does with a request: it calls [next()], with the
    decoded token attached as [req.user] when one was verified, or answers
    401 or 403. *)
Inductive authResult (Decoded : Type) :=
| Next (user : option Decoded)
| Reject401
| Reject403.
Arguments Reject401 {Decoded}.
Arguments Reject403 {Decoded}.

(** The answers of the OCR route: [200 {parsed, raw, url}],
    [400 {error: 'file required'}], the 401 and 403 of the token check, and
    [500 {error: 'ocr failed', details}]. *)
Inductive ocrResponse :=
| Ocr200 (parsed : Parsed) (raw : jsstring) (url : option jsstring)
| Ocr400
| Ocr401
| Ocr403
| Ocr500.

Section Authentication.

Variable Decoded : Type.
(** [admin.auth().verifyIdToken]; [None] when the promise rejects. *)
Variable verifyIdToken : jsstring -> option Decoded.

(** Lines 78-99. *)
Definition verifyFirebaseIdToken (DISABLE_AUTH header : option jsstring)
  : authResult Decoded :=
  if authDisabled DISABLE_AUTH then Next None
  else
    let auth := authorizationOf header in
    if isEmpty auth || negb (startsWith auth (js "Bearer ")) then Reject401
    else
      let idToken := stripBearer auth in
      match verifyIdToken idToken with
      | Some decoded => Next (Some decoded)
      | None => Reject403
      end.

(** Lines 225-237, the check at the head of the OCR route: [None] when the
    route goes on, else the answer it returns. *)
Definition ocrAuthorization (DISABLE_AUTH header : option jsstring)
  : option ocrResponse :=
  let auth := authorizationOf header in
  if negb (authDisabled DISABLE_AUTH) then
    if negb (startsWith auth (js "Bearer ")) then Some Ocr401
    else
      let idToken := stripBearer auth in
      match verifyIdToken idToken with
      | Some _ => None
      | None => Some Ocr403
      end
  else None.

End Authentication.

(** *** The OCR route (lines 221-281) *)

(** [raw.split(/\r?\n/)]: the separators are the line feeds, each with the
    carriage return just before it when there is one.  [cur] holds the
    current piece, last code unit first. *)
Fixpoint splitLines (s : jsstring) (cur : list N) : list jsstring :=
  match s with
  | [] => [rev cur]
  | c :: r =>
      if (c =? 10)%N then
        rev (match cur with
             | d :: cur' => if (d =? 13)%N then cur' else cur
             | [] => cur
             end) :: splitLines r []
      else splitLines r (c :: cur)
  end.

(** Line 245: [raw.split(/\r?\n/).map(l => l.trim()).filter(Boolean)] *)
Definition ocrLines (raw : jsstring) : list jsstring :=
  filter (fun l => negb (isEmpty l)) (map trim (splitLines raw [])).

(** Line 246. *)
Definition ocrVendorName (raw : jsstring) : jsstring :=
  match ocrLines raw with
  | l :: _ => l
  | [] => []
  end.

(** A regular-expression literal of the source, compiled by the engine of
    the fragment. *)
Definition regexLiteral (pattern flags : string) : JSRegExp.regex :=
  match JSRegExp.compile (js pattern) (js flags) with
  | JSRegExp.Compiled re => re
  | _ =>
      {| JSRegExp.ignoreCase := false; JSRegExp.multiline := false;
         JSRegExp.global := false; JSRegExp.root := JSRegExp.Empty;
         JSRegExp.nGroups := 0; JSRegExp.groupNames := [] |}
  end.

(** Line 250. *)
Definition currencyRe : JSRegExp.regex :=
  regexLiteral
    "(?:total|grand total|amount|balance|₹|rs\.?|inr)[:\s]*([0-9,]+(?:\.[0-9]+)?)"
    "i".

(** Line 256, [/([0-9]{1,3}(?:,[0-9]{3})*(?:\.[0-9]+)?|\d+\.\d+)/g], with
    its two bounded repetitions of a digit written out: [{1,3}] as a digit
    and up to two more, [{3}] as three digits. *)
Definition numberTokenRe : JSRegExp.regex :=
  regexLiteral
    "([0-9](?:[0-9](?:[0-9])?)?(?:,[0-9][0-9][0-9])*(?:\.[0-9]+)?|\d+\.\d+)"
    "g".

(** [.replace(/,/g, '')] *)
Definition removeCommas (s : jsstring) : jsstring :=
  filter (fun c => negb (c =? 44)%N) s.

(** Lines 249-260. *)
Definition ocrTotal (raw : jsstring) : option number :=
  let fallback :=
    (* raw.match(/.../g) || [] : the matched strings, in order *)
    let allNums := map whole (JSRegExp.matchAll raw numberTokenRe) in
    match rev allNums with
    | lastNum :: _ => orNull (Number (removeCommas lastNum))
    | [] => None
    end in
  match JSRegExp.matchFirst raw currencyRe with
  | Some m =>
      match pick (elt m 1) with
      | Some m1 => orNull (Number (removeCommas m1))
      | None => fallback
      end
  | None => fallback
  end.

(** Line 275. *)
Definition ocrParsed (raw : jsstring) : Parsed :=
  {| raw := raw; vendorName := ocrVendorName raw; purchaseDate := [];
     subtotal := None; total := ocrTotal raw; items := [] |}.

(** The characters kept in the name of an uploaded file:
    [[a-zA-Z0-9._-]]. *)
Definition isSafeNameChar (c : N) : bool :=
  JSRegExp.isAlpha c || isDigit c
  || (c =? 46)%N || (c =? 95)%N || (c =? 45)%N.

(** Line 266: [(originalname || 'upload').replace(/[^a-zA-Z0-9._-]/g, '_')] *)
Definition safeName (originalname : option jsstring) : jsstring :=
  map (fun c => if isSafeNameChar c then c else 95%N)
    (match pick originalname with
     | Some n => n
     | None => js "upload"
     end).

(** Line 266: the name of the stored object; [now] is [Date.now()], a
    whole number of milliseconds, printed in decimal. *)
Definition uploadName (now : N) (originalname : option jsstring) : jsstring :=
  js "ocr_uploads/" ++ NumberToString.decimalString (Z.of_N now)
  ++ 95%N :: safeName originalname.

(** [req.file] as left by multer. *)
Record UploadedFile (Buffer : Type) := {
  buffer : option Buffer;
  originalname : option jsstring
}.

Section OcrRoute.

Variable Decoded : Type.
Variable verifyIdToken : jsstring -> option Decoded.
Variable Buffer : Type.
(** [runTesseractOnBuffer], [None] when the promise rejects; and the two
    storage calls of lines 268-269 on a named object, [None] when either
    throws. *)
Variable runTesseractOnBuffer : Buffer -> option jsstring.
Variable saveAndSign : jsstring -> Buffer -> option jsstring.

(** Lines 221-281. *)
Definition ocrRoute (DISABLE_AUTH header : option jsstring) (now : N)
  (file : option (UploadedFile Buffer)) : ocrResponse :=
  match ocrAuthorization verifyIdToken DISABLE_AUTH header with
  | Some rejected => rejected
  | None =>
      match file with
      | Some {| buffer := Some buf; originalname := name |} =>
          match runTesseractOnBuffer buf with
          | None => Ocr500
          | Some raw =>
              let url := saveAndSign (uploadName now name) buf in
              Ocr200 (ocrParsed raw) raw url
          end
      | _ => Ocr400
      end
  end.

End OcrRoute.

(** The body [{text, template}] for a text of any kind. *)
Definition request' (text template : value) : value :=
  VObj [prop "text" text; prop "template" template].

(** *** Requests used in the statements below *)

(** The scenario with the patterns beside the text, without a [template]
    property. *)
Definition flatReceiptRequest : value :=
  VObj [prop "text" (VStr receipt);
        prop "vendorRegex" (str "^(.+)$");
        prop "dateRegex" (str "Date: (\S+)");
        prop "totalRegex" (str "Total:\s*[₹]?([0-9,\.]+)");
        prop "itemsRegex" (str "(\w+ \w)\s+(\d+)\s+(\w+)\s+([0-9\.]+)")].

(** The template of the scenario with an empty string as [totalRegex]. *)
Definition emptyTotalTemplate : value :=
  VObj [prop "vendorRegex" (str "^(.+)$");
        prop "dateRegex" (str "Date: (\S+)");
        prop "totalRegex" (str "");
        prop "itemsRegex" (str "(\w+ \w)\s+(\d+)\s+(\w+)\s+([0-9\.]+)")].

(** A text that [String] cannot convert, and a text that it converts to
    the empty string. *)
Definition unprintableTextRequest : value :=
  request' (VObj [prop "toString" VNull]) receiptTemplate.

Definition emptyArrayTextRequest : value :=
  request' (VArr []) receiptTemplate.

(** A line written with named captures, and an items pattern without any
    group. *)
Definition namedRequest : value :=
  request (js "Milk x2 @ 20.50")
    (VObj [prop "itemsRegex"
             (str "(?<name>\w+) x(?<qty>\d+) @ (?<price>[0-9.]+)")]).

Definition bareRequest : value :=
  request (js "x-x") (VObj [prop "itemsRegex" (str "x")]).

(** *** Definitions used in the statements below *)

(** The value a template field fills in the record. *)
Inductive fieldValue :=
| TextValue (s : jsstring)
| AmountValue (a : option number)
| ItemsValue (l : list LineItem).

Definition fieldOf (f : field) (r : Parsed) : fieldValue :=
  match f with
  | Vendor => TextValue (vendorName r)
  | Date => TextValue (purchaseDate r)
  | Total => AmountValue (total r)
  | Subtotal => AmountValue (subtotal r)
  | Items => ItemsValue (items r)
  end.

(** A string that neither starts nor ends with white space. *)
Definition startsWithSpace (s : jsstring) : bool :=
  match s with
  | c :: _ => isSpace c
  | [] => false
  end.

Definition isTrimmed (s : jsstring) : bool :=
  negb (startsWithSpace s) && negb (startsWithSpace (rev s)).

(** The integer that a string of decimal digits spells. *)
Definition decimalValue (s : jsstring) : N :=
  fold_left (fun a c => (a * 10 + (c - 48))%N) s 0%N.

(** A Number that is not NaN and not minus zero. *)
Definition isPlainNumber (x : number) : bool :=
  match x with
  | NaN => false
  | Fin true 0%N _ => false
  | _ => true
  end.

(** [y] is reached from [x] by consuming code units that satisfy [P]: the
    groups are as many, and the input is the same. *)
Definition reaches (P : N -> Prop) (x y : JSRegExp.mstate) : Prop :=
  exists w,
    JSRegExp.after x = w ++ JSRegExp.after y /\
    JSRegExp.before y = rev w ++ JSRegExp.before x /\
    Forall P w /\
    List.length (JSRegExp.caps y) = List.length (JSRegExp.caps x).

(** Every code unit that the node can consume satisfies [P]. *)
Fixpoint consumesOnly (ic : bool) (P : N -> Prop) (r : JSRegExp.node)
  : Prop :=
  match r with
  | JSRegExp.Char a =>
      forall c, existsb (N.eqb a) (JSRegExp.variants ic c) = true -> P c
  | JSRegExp.CharSet invert ms =>
      forall c,
        xorb invert (existsb (JSRegExp.memberMatches ic c) ms) = true -> P c
  | JSRegExp.Seq a b | JSRegExp.Alt a b =>
      consumesOnly ic P a /\ consumesOnly ic P b
  | JSRegExp.Group _ b | JSRegExp.Quant _ _ _ _ b => consumesOnly ic P b
  | _ => True
  end.

(** The code units of a numeric token: digits, dots and commas. *)
Definition isNumericUnit (c : N) : bool :=
  isDigit c || (c =? 46)%N || (c =? 44)%N.

Definition isNumeric (c : N) : Prop := isNumericUnit c = true.

(** A sufficient test for a node to consume numeric code units only:
    every character of it is numeric, every class is a plain class of
    numeric characters, of ranges of digits and of [\d]. *)
Definition numericMember (it : JSRegExp.classItem) : bool :=
  match it with
  | JSRegExp.CChar a => isNumericUnit a
  | JSRegExp.CRange lo hi => ((48 <=? lo) && (hi <=? 57))%N
  | JSRegExp.CDigit false => true
  | _ => false
  end.

Fixpoint numericNode (r : JSRegExp.node) : bool :=
  match r with
  | JSRegExp.Char a => isNumericUnit a
  | JSRegExp.CharSet false ms => forallb numericMember ms
  | JSRegExp.CharSet true _ => false
  | JSRegExp.Seq a b | JSRegExp.Alt a b => numericNode a && numericNode b
  | JSRegExp.Group _ b | JSRegExp.Quant _ _ _ _ b => numericNode b
  | _ => true
  end.

(** [text.replace(re, '')] for a regex without [g], on the engine of the
    fragment. *)
Definition removeFirstMatch (text : jsstring) (re : JSRegExp.regex)
  : jsstring :=
  match JSRegExp.search re [] text with
  | Some (x, y) => rev (JSRegExp.before x) ++ JSRegExp.after y
  | None => text
  end.

(** Lines 89 and 228: the literal [/^Bearer\s+/i], and the node of the
    white space that may follow the first one. *)
Definition bearerRe : JSRegExp.regex := regexLiteral "^Bearer\s+" "i".

Definition spaceStar : JSRegExp.node :=
  JSRegExp.Quant JSRegExp.QStar true 0 0
    (JSRegExp.CharSet false [JSRegExp.CSpace false]).

(** Closes a goal between closed terms, or a conjunction of such goals, by
    evaluation. *)
Ltac evaluate :=
  repeat match goal with |- _ /\ _ => split end; vm_compute; reflexivity.

(** ** Properties of the runtime functions *)

Lemma trimStart_In (c : N) (s : jsstring) : In c (trimStart s) -> In c s.
Proof.
  induction s as [|a s IH]; simpl; [tauto|].
  destruct (isSpace a); simpl; intuition.
Qed.

Lemma trim_In (c : N) (s : jsstring) : In c (trim s) -> In c s.
Proof.
  unfold trim, trimEnd. intros H.
  apply in_rev in H. apply trimStart_In in H. apply in_rev in H.
  now apply trimStart_In.
Qed.

Lemma trimStart_spaces (s : jsstring) :
  forallb isSpace s = true -> trimStart s = [].
Proof.
  induction s as [|a s IH]; simpl; [reflexivity|].
  intros H. apply andb_true_iff in H as [Ha Hs]. rewrite Ha. now apply IH.
Qed.

(** A string of white space trims to the empty string. *)
Lemma trim_spaces (s : jsstring) : forallb isSpace s = true -> trim s = [].
Proof.
  intros H. unfold trim. now rewrite (trimStart_spaces s H).
Qed.

Lemma normal_sign (neg : bool) (m e : Z) :
  signBit (Binary64.normal neg m e) = neg.
Proof.
  unfold Binary64.normal. destruct m as [|p|p]; try reflexivity.
  destruct (Binary64.odd_part p e). reflexivity.
Qed.

(** Rounding keeps the sign it is given. *)
Lemma round_sign (neg : bool) (p q : Z) :
  signBit (Binary64.round neg p q) = neg.
Proof.
  unfold Binary64.round.
  destruct (p <=? 0)%Z; [reflexivity|].
  destruct (Binary64.scale p q _) as [a b].
  match goal with |- context [if ?c then Inf neg else _] => destruct c end;
    [reflexivity | apply normal_sign].
Qed.

Lemma decimal_sign (neg : bool) (m : N) (d : Z) :
  signBit (Binary64.decimal neg m d) = neg.
Proof.
  unfold Binary64.decimal. destruct (0 <=? d)%Z; apply round_sign.
Qed.

Lemma unsignedDecimal_sign (s : jsstring) :
  signBit (StringNumericLiteral.unsignedDecimal false s) = false.
Proof.
  unfold StringNumericLiteral.unsignedDecimal.
  destruct (jseq s (js "Infinity")); [reflexivity|].
  destruct (StringNumericLiteral.digits 10 s 0 0) as [[ip ni] r1].
  destruct (StringNumericLiteral.fraction ip r1) as [[m nf] r2].
  destruct (ni + nf)%nat; [reflexivity|].
  destruct (StringNumericLiteral.exponent r2);
    [apply decimal_sign | reflexivity].
Qed.

Lemma nonDecimal_sign (s : jsstring) (x : number) :
  StringNumericLiteral.nonDecimal s = Some x -> signBit x = false.
Proof.
  unfold StringNumericLiteral.nonDecimal.
  destruct s as [|c [|p r]]; try discriminate.
  match goal with
  | |- match ?base with _ => _ end = _ -> _ => destruct base as [b|]
  end; [|discriminate].
  destruct (StringNumericLiteral.integer b r) as [v|]; [|discriminate].
  intros [= <-]. apply round_sign.
Qed.

(** [Number] gives a negative value, or minus zero, only to a string with
    a minus sign. *)
Lemma Number_sign (s : jsstring) :
  ~ In 45%N s -> signBit (Number s) = false.
Proof.
  intros Hs. unfold Number.
  destruct (trim s) as [|c r] eqn:Ht; [reflexivity|].
  destruct (c =? 45)%N eqn:Hc.
  - exfalso. apply Hs. apply N.eqb_eq in Hc. subst c.
    apply trim_In. rewrite Ht. now left.
  - destruct (c =? 43)%N; [apply unsignedDecimal_sign|].
    destruct (StringNumericLiteral.nonDecimal (c :: r)) as [x|] eqn:Hn.
    + exact (nonDecimal_sign _ Hn).
    + apply unsignedDecimal_sign.
Qed.

Lemma stripNumeric_single (s : jsstring) :
  stripNumeric s = filter (fun c => isDigit c || (c =? 46)%N) s.
Proof.
  unfold stripNumeric.
  induction s as [|c s IH]; simpl; [reflexivity|].
  destruct (c =? 44)%N eqn:Hc.
  - apply N.eqb_eq in Hc. subst c. simpl. exact IH.
  - rewrite orb_false_r.
    destruct (isDigit c || (c =? 46)%N); simpl; [rewrite Hc; simpl|];
      now rewrite IH.
Qed.

Lemma stripNumeric_no_minus (s : jsstring) : ~ In 45%N (stripNumeric s).
Proof.
  rewrite stripNumeric_single. intros H.
  apply filter_In in H as [_ H]. discriminate H.
Qed.

(** The number read from a stripped string is never negative, and never
    minus zero. *)
Lemma stripped_sign (s : jsstring) :
  signBit (Number (stripNumeric s)) = false.
Proof. apply Number_sign, stripNumeric_no_minus. Qed.

Lemma round_canonicalZero (neg : bool) (p q : Z) :
  canonicalZero (Binary64.round neg p q).
Proof.
  unfold Binary64.round.
  destruct (p <=? 0)%Z; [reflexivity|].
  destruct (Binary64.scale p q _) as [a b].
  match goal with |- context [if ?c then Inf neg else _] => destruct c end;
    [exact I|].
  unfold Binary64.normal.
  match goal with |- context [match ?mant with Z0 => _ | _ => _ end] =>
    destruct mant as [|m|m] end; try reflexivity.
  destruct (Binary64.odd_part m _). exact I.
Qed.

Lemma unsignedDecimal_canonicalZero (neg : bool) (s : jsstring) :
  canonicalZero (StringNumericLiteral.unsignedDecimal neg s).
Proof.
  unfold StringNumericLiteral.unsignedDecimal.
  destruct (jseq s (js "Infinity")); [exact I|].
  destruct (StringNumericLiteral.digits 10 s 0 0) as [[ip ni] r1].
  destruct (StringNumericLiteral.fraction ip r1) as [[m nf] r2].
  destruct (ni + nf)%nat; [exact I|].
  destruct (StringNumericLiteral.exponent r2); [|exact I].
  unfold Binary64.decimal. destruct (0 <=? _)%Z; apply round_canonicalZero.
Qed.

Lemma Number_canonicalZero (s : jsstring) : canonicalZero (Number s).
Proof.
  unfold Number. destruct (trim s) as [|c r]; [reflexivity|].
  destruct (c =? 45)%N; [apply unsignedDecimal_canonicalZero|].
  destruct (c =? 43)%N; [apply unsignedDecimal_canonicalZero|].
  destruct (StringNumericLiteral.nonDecimal (c :: r)) as [x|] eqn:Hn;
    [|apply unsignedDecimal_canonicalZero].
  unfold StringNumericLiteral.nonDecimal in Hn.
  destruct r as [|p r]; [discriminate|].
  match type of Hn with
  | match ?base with _ => _ end = _ => destruct base as [b|]
  end; [|discriminate].
  destruct (StringNumericLiteral.integer b r); [|discriminate].
  injection Hn as <-. apply round_canonicalZero.
Qed.

(** [x || 0] on the number of a stripped string only replaces NaN. *)
Lemma orZero_stripped (s : jsstring) :
  orZero (Number (stripNumeric s)) =
  match Number (stripNumeric s) with
  | NaN => zero
  | x => x
  end.
Proof.
  pose proof (stripped_sign s) as Hs.
  pose proof (Number_canonicalZero (stripNumeric s)) as Hz.
  destruct (Number (stripNumeric s)) as [|neg|neg m e]; try reflexivity.
  unfold orZero, numTruthy. simpl in Hs. subst neg.
  destruct m; simpl in *; [now subst e | reflexivity].
Qed.

Lemma orNull_positive (s : jsstring) (x : number) :
  numberOrNull s = Some x -> positiveNumber x = true.
Proof.
  unfold numberOrNull, orNull. pose proof (stripped_sign s) as Hs.
  destruct (numTruthy _) eqn:Ht; [|discriminate].
  intros [= <-]. destruct (Number (stripNumeric s)); simpl in *;
    try discriminate; now subst.
Qed.

Lemma orZero_nonNegative (s : jsstring) :
  nonNegative (orZero (Number (stripNumeric s))) = true.
Proof.
  rewrite orZero_stripped. pose proof (stripped_sign s) as Hs.
  destruct (Number (stripNumeric s)); simpl in *; try reflexivity;
    now subst.
Qed.

(** ** The handler on an arbitrary engine *)

(** ** The runtime model on known values *)

(** Decimal literals and their binary64 values: 1234.5 is 2469/2, 130 is
    65 * 2, 0.2 is the nearest value 3602879701896397 / 2^54. *)
Example number_values :
  frac 12345 10 = Fin false 2469 (-1) /\
  num 130 = Fin false 65 1 /\
  num 2000 = Fin false 125 4 /\
  frac 2 10 = Fin false 3602879701896397 (-54).
Proof. evaluate. Qed.

Example Number_values :
  Number (js " 12 ") = num 12 /\
  Number (js "0x1F") = num 31 /\
  Number (js "1e3") = num 1000 /\
  Number (js ".5") = frac 1 2 /\
  Number (js "") = zero /\
  Number (js "-0") = Fin true 0 0 /\
  Number (js "1,000") = NaN /\
  Number (js "12px") = NaN /\
  Number (js "1e400") = Inf false /\
  Number (js "-Infinity") = Inf true /\
  Number (js "9007199254740993") = num 9007199254740992 /\
  Number (js "5e-324") = Fin false 1 (-1074) /\
  Number (js "2e-324") = zero.
Proof. evaluate. Qed.

Example Number_toString_values :
  Number_toString (frac 1 10) = js "0.1" /\
  Number_toString (frac 12345 10) = js "1234.5" /\
  Number_toString (Number (js "0.30000000000000004"))
  = js "0.30000000000000004" /\
  Number_toString (Number (js "1e21")) = js "1e+21" /\
  Number_toString (Number (js "123456789012345680000"))
  = js "123456789012345680000" /\
  Number_toString (Number (js "0.0000001")) = js "1e-7" /\
  Number_toString (Number (js "1e23")) = js "1e+23" /\
  Number_toString (Fin true 25 (-1)) = js "-12.5".
Proof. evaluate. Qed.

Example ToString_values :
  ToString (VArr [str "a"; VNull; VArr [VBool true; VNum (num 2)]])
  = Some (js "a,,true,2") /\
  ToString (VObj [prop "a" VNull]) = Some (js "[object Object]") /\
  ToString (VObj [prop "toString" (str "x")]) = None.
Proof. evaluate. Qed.

(** The examples of the notes of ECMA-262 22.2.2 that lie in the
    fragment. *)
Example exec_alternative_order :
  exec "a|ab" "" "abc" = Some (Some [Some (js "a")]).
Proof. evaluate. Qed.

Example exec_alternative_groups :
  exec "((a)|(ab))((c)|(bc))" "" "abc" =
  Some (Some [Some (js "abc"); Some (js "a"); Some (js "a"); None;
              Some (js "bc"); None; Some (js "bc")]).
Proof. evaluate. Qed.

Example exec_star_backtracks :
  exec "(aa|aabaac|ba|b|c)*" "" "aabaac" =
  Some (Some [Some (js "aaba"); Some (js "ba")]).
Proof. evaluate. Qed.

Example exec_captures_reset :
  exec "(z)((a+)?(b+)?(c))*" "" "zaacbbbcac" =
  Some (Some [Some (js "zaacbbbcac"); Some (js "z"); Some (js "ac");
              Some (js "a"); None; Some (js "c")]).
Proof. evaluate. Qed.

Example exec_empty_iteration :
  exec "(a*)*" "" "b" = Some (Some [Some []; None]).
Proof. evaluate. Qed.

Example exec_flags :
  exec "^total:\s*(\d+)$" "im" (String "x" (String "010" "Total: 42"))
  = Some (Some [Some (js "Total: 42"); Some (js "42")]) /\
  exec "^total:\s*(\d+)$" "" (String "x" (String "010" "Total: 42"))
  = Some None.
Proof. evaluate. Qed.

Example compile_rejects :
  JSRegExp.compile (js "(") (js "im") = JSRegExp.SyntaxError /\
  JSRegExp.compile (js "a)") (js "im") = JSRegExp.SyntaxError /\
  JSRegExp.compile (js "[a") (js "im") = JSRegExp.SyntaxError /\
  JSRegExp.compile (js "*a") (js "im") = JSRegExp.SyntaxError /\
  JSRegExp.compile (js "[z-a]") (js "im") = JSRegExp.SyntaxError /\
  JSRegExp.compile (js "(?<n>a)(?<n>b)") (js "im") = JSRegExp.SyntaxError /\
  JSRegExp.compile (js "a") (js "mm") = JSRegExp.SyntaxError /\
  JSRegExp.compile (js "a{2}") (js "im") = JSRegExp.Unsupported /\
  JSRegExp.compile (js "(?=a)") (js "im") = JSRegExp.Unsupported.
Proof. evaluate. Qed.

Lemma field_eq_dec (f g : field) : {f = g} + {f <> g}.
Proof. decide equality. Defined.

Section Properties.

Context {engine : RegExpEngine}.

Lemma build_undefined (flags : string) : build VUndefined flags = None.
Proof. reflexivity. Qed.

(** A pattern string that the constructor rejects builds no matcher. *)
Lemma build_invalid (f : field) (p : jsstring) :
  RegExp_new p (js (flagsOf f)) = None ->
  build (VStr p) (flagsOf f) = None.
Proof.
  intros H. unfold build. destruct p as [|c p]; [reflexivity|].
  destruct f; exact H.
Qed.

(** The loop of lines 177-192 only appends to [out.items]. *)
Lemma push_items (l : list MatchResult) (o : Parsed) :
  fold_left (fun o mm => push_item o (itemOf mm)) l o =
  {| raw := raw o; vendorName := vendorName o;
     purchaseDate := purchaseDate o; subtotal := subtotal o;
     total := total o; items := items o ++ map itemOf l |}.
Proof.
  revert o. induction l as [|mm l IH]; intros o; simpl.
  - rewrite app_nil_r. now destruct o.
  - rewrite IH. simpl. now rewrite <- app_assoc.
Qed.

Lemma extract_raw (tpl : value) (t : jsstring) : raw (extract tpl t) = t.
Proof.
  unfold extract.
  repeat match goal with
         | |- context [match ?x with Some _ => _ | None => _ end] =>
             destruct x
         end; try rewrite push_items; reflexivity.
Qed.

Lemma extract_vendorName (tpl : value) (t : jsstring) :
  vendorName (extract tpl t) =
  match build (get tpl "vendorRegex") "im" with
  | Some re => vendorOf (String_match t re)
  | None => []
  end.
Proof.
  unfold extract.
  destruct (build (get tpl "vendorRegex") "im");
    repeat match goal with
           | |- context [match ?x with Some _ => _ | None => _ end] =>
               lazymatch x with
               | context [vendorOf] => fail
               | _ => destruct x
               end
           end; try rewrite push_items; reflexivity.
Qed.

Lemma extract_purchaseDate (tpl : value) (t : jsstring) :
  purchaseDate (extract tpl t) =
  match build (get tpl "dateRegex") "im" with
  | Some re => dateOf (String_match t re)
  | None => []
  end.
Proof.
  unfold extract.
  destruct (build (get tpl "dateRegex") "im");
    repeat match goal with
           | |- context [match ?x with Some _ => _ | None => _ end] =>
               lazymatch x with
               | context [dateOf] => fail
               | _ => destruct x
               end
           end; try rewrite push_items; reflexivity.
Qed.

Lemma extract_total (tpl : value) (t : jsstring) :
  total (extract tpl t) =
  match build (get tpl "totalRegex") "im" with
  | Some re =>
      match String_match t re with
      | Some m => amountOf m
      | None => None
      end
  | None => None
  end.
Proof.
  unfold extract.
  repeat match goal with
         | |- context [match ?x with Some _ => _ | None => _ end] =>
             destruct x
         end; try rewrite push_items; reflexivity.
Qed.

Lemma extract_subtotal (tpl : value) (t : jsstring) :
  subtotal (extract tpl t) =
  match build (get tpl "subtotalRegex") "im" with
  | Some re =>
      match String_match t re with
      | Some m => amountOf m
      | None => None
      end
  | None => None
  end.
Proof.
  unfold extract.
  repeat match goal with
         | |- context [match ?x with Some _ => _ | None => _ end] =>
             destruct x
         end; try rewrite push_items; reflexivity.
Qed.

Lemma extract_items (tpl : value) (t : jsstring) :
  items (extract tpl t) =
  match build (get tpl "itemsRegex") "gim" with
  | Some re => map itemOf (String_matchAll t re)
  | None => []
  end.
Proof.
  unfold extract.
  repeat match goal with
         | |- context [match ?x with Some _ => _ | None => _ end] =>
             destruct x
         end; try rewrite push_items; reflexivity.
Qed.

(** The record depends on the template through the five matchers
    only. *)
Lemma extract_ext (tpl tpl' : value) (t : jsstring) :
  (forall f, build (get tpl' (key f)) (flagsOf f)
             = build (get tpl (key f)) (flagsOf f)) ->
  extract tpl' t = extract tpl t.
Proof.
  intros H.
  pose proof (H Vendor) as Hv. pose proof (H Date) as Hd.
  pose proof (H Total) as Ht. pose proof (H Subtotal) as Hs.
  pose proof (H Items) as Hi. cbn [key flagsOf] in *.
  unfold extract. now rewrite Hv, Hd, Ht, Hs, Hi.
Qed.

(** A request with a non-empty text is answered with the extracted
    record. *)
Lemma handler_ok (body : value) (t : jsstring) :
  textOf body = Some t -> t <> [] ->
  handler body = Ok200 (extract (templateOf body) t).
Proof.
  intros Ht Hne. unfold handler. rewrite Ht.
  destruct t; [contradiction | reflexivity].
Qed.

Lemma handler_inv (body : value) (r : Parsed) :
  handler body = Ok200 r ->
  exists t, textOf body = Some t /\ t <> [] /\
            r = extract (templateOf body) t.
Proof.
  unfold handler. destruct (textOf body) as [t|]; [|discriminate].
  destruct t as [|c t]; [discriminate|].
  intros [= <-]. exists (c :: t). repeat split. discriminate.
Qed.

Lemma orStr_candidate (m : MatchResult) :
  orStr (elt m 1) (elt m 0) = candidate m.
Proof.
  unfold orStr, candidate, pick.
  destruct (elt m 1) as [[|c s]|]; simpl; try reflexivity;
    now destruct (whole m).
Qed.

(** Lines 163-164 against section 4.4: the field is the normalized
    number unless that is absent or a zero. *)
Lemma amountOf_normalized (m : MatchResult) :
  amountOf m = nonZero (spec_normalizeNumber (candidate m)).
Proof.
  unfold amountOf, numberOrNull, spec_normalizeNumber.
  rewrite orStr_candidate. fold (stripNumeric (candidate m)).
  unfold nonZero, orNull.
  now destruct (Number (stripNumeric (candidate m))).
Qed.

Lemma pick_Some (a : option jsstring) (s : jsstring) :
  pick a = Some s <-> a = Some s /\ s <> [].
Proof.
  destruct a as [[|c r]|]; simpl; split;
    try discriminate; try (intros [H _]; discriminate H).
  - intros [H1 H2]. injection H1 as <-. now elim H2.
  - intros [= <-]. split; [reflexivity | discriminate].
  - intros [H _]. exact H.
Qed.

(** The test of line 179 holds exactly when one of [name], [product],
    [qty] and [price] is a non-empty named capture. *)
Lemma usesNamed_true (mm : MatchResult) :
  usesNamed mm = true <->
  exists k s,
    In k ["name"; "product"; "qty"; "price"]%string /\
    named mm k = Some s /\ s <> [].
Proof.
  unfold usesNamed. split.
  - destruct (pick (named mm "name")) as [s|] eqn:H1.
    { intros _. exists "name"%string, s. apply pick_Some in H1.
      simpl. tauto. }
    destruct (pick (named mm "product")) as [s|] eqn:H2.
    { intros _. exists "product"%string, s. apply pick_Some in H2.
      simpl. tauto. }
    destruct (pick (named mm "qty")) as [s|] eqn:H3.
    { intros _. exists "qty"%string, s. apply pick_Some in H3.
      simpl. tauto. }
    destruct (pick (named mm "price")) as [s|] eqn:H4; [|discriminate].
    intros _. exists "price"%string, s. apply pick_Some in H4.
    simpl. tauto.
  - intros (k & s & Hk & Hs & Hne).
    assert (Hp : pick (named mm k) = Some s) by now apply pick_Some.
    simpl in Hk.
    destruct Hk as [<-|[<-|[<-|[<-|[]]]]]; rewrite Hp;
      repeat match goal with
             | |- context [match ?x with Some _ => _ | None => _ end] =>
                 destruct x
             end; reflexivity.
Qed.

Lemma itemOf_price (mm : MatchResult) :
  exists a, price (itemOf mm) = priceOf a.
Proof.
  unfold itemOf. destruct (usesNamed mm); simpl; eauto.
Qed.

Lemma priceOf_nonNegative (a : option jsstring) :
  nonNegative (priceOf a) = true.
Proof. apply orZero_nonNegative. Qed.

Lemma orStr_nth (l : list jsstring) (i : nat) :
  orStr (nth_error l i) None = nth i l [].
Proof.
  revert i. induction l as [|a l IH]; intros [|i]; simpl; try reflexivity.
  - now destruct a.
  - apply IH.
Qed.

Lemma quantityOf_first (a : option jsstring) :
  quantityOf a None = orZero (Number (orStr a None)).
Proof. now destruct a as [[|c s]|]. Qed.

(** The price of a line item against section 4.4. *)
Lemma priceOf_normalized (a : option jsstring) :
  priceOf a =
  match spec_normalizeNumber (orStr a None) with
  | Some x => x
  | None => zero
  end.
Proof.
  unfold priceOf. rewrite orZero_stripped.
  unfold spec_normalizeNumber. fold (stripNumeric (orStr a None)).
  now destruct (Number (stripNumeric (orStr a None))).
Qed.

Lemma vendorOf_match (m : MatchResult) :
  vendorOf (Some m) =
  match elt m 1 with
  | Some (c :: s) => trim (c :: s)
  | _ => trim (whole m)
  end.
Proof.
  unfold vendorOf, pick.
  destruct (elt m 1) as [[|c s]|]; simpl; try reflexivity;
    now destruct (whole m).
Qed.

End Properties.

(** ** The claims *)

(** C1.  A template field whose pattern string the RegExp constructor
    rejects leaves its own field of the record at the default and changes
    nothing else: the request is answered with exactly the record of the
    request in which that pattern is absent, and with no error. *)
Theorem invalid_pattern_isolated {engine : RegExpEngine}
  (f : field) (body body' : value) (t p : jsstring) :
  textOf body = Some t -> textOf body' = Some t -> t <> [] ->
  get (templateOf body) (key f) = VStr p ->
  RegExp_new p (js (flagsOf f)) = None ->
  get (templateOf body') (key f) = VUndefined ->
  (forall g, g <> f ->
     get (templateOf body') (key g) = get (templateOf body) (key g)) ->
  exists r,
    handler body = Ok200 r /\ handler body' = Ok200 r /\ atDefault f r.
Proof.
  intros Ht Ht' Hne Hp Hbad Habs Hsame.
  exists (extract (templateOf body) t).
  rewrite (handler_ok body Ht Hne), (handler_ok body' Ht' Hne).
  pose proof (build_invalid f p Hbad) as Hb.
  assert (Heq : extract (templateOf body') t = extract (templateOf body) t).
  { apply extract_ext. intros g.
    destruct (field_eq_dec g f) as [->|Hg].
    - now rewrite Hp, Habs, Hb.
    - now rewrite (Hsame g Hg). }
  rewrite Heq. repeat split.
  destruct f; cbn [atDefault key flagsOf] in *.
  - now rewrite extract_vendorName, Hp, Hb.
  - now rewrite extract_purchaseDate, Hp, Hb.
  - now rewrite extract_total, Hp, Hb.
  - now rewrite extract_subtotal, Hp, Hb.
  - now rewrite extract_items, Hp, Hb.
Qed.

Lemma invalid_pattern_isolated_witness :
  JSRegExp.compile (js "(") (js "im") = JSRegExp.SyntaxError /\
  exists r,
    handler (request receipt brokenTotalTemplate) = Ok200 r /\
    handler (request receipt noTotalTemplate) = Ok200 r /\
    atDefault Total r.
Proof.
  split; [reflexivity|].
  apply (@invalid_pattern_isolated fragment Total
           (request receipt brokenTotalTemplate)
           (request receipt noTotalTemplate) receipt (js "("));
    try reflexivity; try discriminate.
  intros g Hg. destruct g; try reflexivity. now elim Hg.
Defined.

(** C2.  A request with a non-empty text is always answered with a
    record, whatever the template: the record has its six fields, [raw] is
    the text, code unit for code unit, and with none of the five patterns in
    the template every other field is at its default. *)
Theorem handler_total_echo {engine : RegExpEngine}
  (body : value) (t : jsstring) :
  textOf body = Some t -> t <> [] ->
  exists r,
    handler body = Ok200 r /\ raw r = t /\
    ((forall f, get (templateOf body) (key f) = VUndefined) ->
     r = {| raw := t; vendorName := []; purchaseDate := [];
            subtotal := None; total := None; items := [] |}).
Proof.
  intros Ht Hne. exists (extract (templateOf body) t).
  split; [exact (handler_ok body Ht Hne)|].
  split; [apply extract_raw|].
  intros Habs. unfold extract.
  pose proof (Habs Vendor) as Hv. pose proof (Habs Date) as Hd.
  pose proof (Habs Total) as Htot. pose proof (Habs Subtotal) as Hsub.
  pose proof (Habs Items) as Hit. cbn [key] in *.
  now rewrite Hv, Hd, Htot, Hsub, Hit.
Qed.

Lemma handler_total_echo_witness :
  textOf (request receipt (VObj [])) = Some receipt /\
  exists r,
    handler (request receipt (VObj [])) = Ok200 r /\ raw r = receipt /\
    r = {| raw := receipt; vendorName := []; purchaseDate := [];
           subtotal := None; total := None; items := [] |}.
Proof.
  split; [reflexivity|].
  destruct (@handler_total_echo fragment (request receipt (VObj [])) receipt)
    as (r & Hr & Hraw & Hdef); [reflexivity | discriminate |].
  exists r. split; [exact Hr|]. split; [exact Hraw|].
  apply Hdef. intros f. destruct f; reflexivity.
Defined.

(** C3, as stated: the normalization of lines 163-164 would yield 1234.5
    for the first representative string, 2000 for [Rs. 2,000] and nothing
    for [abc].  It does not: the dot of [Rs.] is kept by the stripping. *)
Lemma rs_2000_counterexample :
  ~ (numberOrNull (js "₹1,234.50") = Some (frac 12345 10) /\
     numberOrNull (js "Rs. 2,000") = Some (num 2000) /\
     numberOrNull (js "abc") = None).
Proof. intros (_ & H & _). vm_compute in H. discriminate H. Qed.

(** C3, amended.  Numeric normalization keeps the digits and dots of the
    captured string, in order (every other character is stripped, then the
    commas are removed), and parses what is left; it yields 1234.5 for the
    first representative string, 0.2 for [Rs. 2,000], whose dot survives
    the stripping, 2000 for [Rs 2,000], and nothing for [abc]. *)
Theorem normalization_examples :
  (forall s, stripNumeric s = filter (fun c => isDigit c || (c =? 46)%N) s) /\
  (forall s, numberOrNull s
             = nonZero (match Number (stripNumeric s) with
                        | NaN => None
                        | x => Some x
                        end)) /\
  numberOrNull (js "₹1,234.50") = Some (frac 12345 10) /\
  stripNumeric (js "Rs. 2,000") = js ".2000" /\
  numberOrNull (js "Rs. 2,000") = Some (frac 2 10) /\
  numberOrNull (js "Rs 2,000") = Some (num 2000) /\
  numberOrNull (js "abc") = None.
Proof.
  split; [exact stripNumeric_single|].
  split.
  { intros s. unfold numberOrNull, orNull, nonZero.
    now destruct (Number (stripNumeric s)). }
  evaluate.
Qed.

(** C4, as stated: the scenario would give the purchase date
    [2024-01-15].  The date is the whole match of [dateRegex], which
    starts at [Date:]. *)
Lemma receipt_date_counterexample :
  ~ (exists r,
       handler (request receipt receiptTemplate) = Ok200 r /\
       vendorName r = js "Acme Store" /\
       purchaseDate r = js "2024-01-15" /\
       total r = Some (num 130) /\
       items r = items receiptRecord).
Proof.
  intros (r & Hr & _ & Hd & _).
  vm_compute in Hr. injection Hr as <-. vm_compute in Hd. discriminate Hd.
Qed.

(** C4, amended.  On the receipt and the template of the scenario the
    engine yields the vendor [Acme Store], the purchase date
    [Date: 2024-01-15] (the whole match of the date pattern), the total
    130, no subtotal, and exactly the two items Item A (2 pcs at 50) and
    Item B (1 pcs at 30), in that order. *)
Theorem receipt_scenario :
  handler (request receipt receiptTemplate) = Ok200 receiptRecord.
Proof. vm_compute. reflexivity. Qed.

(** C5, as stated: after a match the field would be the normalized first
    capture group whenever that is a valid number.  A total of 0 is a
    valid number and the field is null. *)
Lemma zero_total_counterexample :
  exists re m r,
    RegExp_new (js "Total: (\d+)") (js "im") = Some re /\
    String_match (js "Total: 0") re = Some m /\
    handler zeroTotalRequest = Ok200 r /\
    spec_amountOf m = Some zero /\
    total r = None.
Proof.
  do 3 eexists. do 4 (split; [evaluate|]). evaluate.
Qed.

(** C5, amended.  For total and for subtotal: when the matcher is absent or
    finds no match the field is null; when it finds a match, the candidate
    is the first capture group if that is a non-empty string and else the
    whole match, the candidate is numerically normalized, and the field is
    the resulting number when that is a number other than zero, and null
    when it is not a number or is zero. *)
Theorem amount_fields {engine : RegExpEngine} (body : value) (t : jsstring) :
  textOf body = Some t -> t <> [] ->
  let amountFor k :=
    match build (get (templateOf body) k) "im" with
    | Some re =>
        match String_match t re with
        | Some m => nonZero (spec_normalizeNumber (candidate m))
        | None => None
        end
    | None => None
    end in
  exists r,
    handler body = Ok200 r /\
    total r = amountFor "totalRegex"%string /\
    subtotal r = amountFor "subtotalRegex"%string.
Proof.
  intros Ht Hne amountFor. exists (extract (templateOf body) t).
  split; [exact (handler_ok body Ht Hne)|].
  rewrite extract_total, extract_subtotal. unfold amountFor.
  split;
    (destruct (build _ _) as [re|]; [|reflexivity];
     destruct (String_match t re) as [m|]; [|reflexivity];
     apply amountOf_normalized).
Qed.

Lemma amount_fields_witness :
  textOf zeroTotalRequest = Some (js "Total: 0") /\
  let amountFor k :=
    match build (get (templateOf zeroTotalRequest) k) "im" with
    | Some re =>
        match String_match (js "Total: 0") re with
        | Some m => nonZero (spec_normalizeNumber (candidate m))
        | None => None
        end
    | None => None
    end in
  exists r,
    handler zeroTotalRequest = Ok200 r /\
    total r = amountFor "totalRegex"%string /\
    subtotal r = amountFor "subtotalRegex"%string.
Proof.
  split; [reflexivity|].
  apply (@amount_fields fragment zeroTotalRequest (js "Total: 0"));
    [reflexivity | discriminate].
Defined.

(** C6, as stated: in the positional strategy the quantity would go
    through numeric normalization, its thousands separators stripped.  The
    quantity [1,000] is converted as it stands, which gives NaN and so 0,
    not 1000. *)
Lemma thousands_quantity_counterexample :
  exists re m r,
    RegExp_new (js "(\w+) ([0-9,]+) (\w+) ([0-9.]+)") (js "gim") = Some re /\
    String_matchAll (js "Milk 1,000 ml 20.50") re = [m] /\
    usesNamed m = false /\
    handler bulkRequest = Ok200 r /\
    qty (spec_positionalItem m) = num 1000 /\
    map qty (items r) = [zero].
Proof.
  do 3 eexists. do 5 (split; [evaluate|]). evaluate.
Qed.

(** C6, amended.  The items of the record are the line items of the
    matches of the items pattern, in order.  In the positional strategy
    the capture groups of a match that took part in it are treated in
    order as productName, qty, unit and price, a missing one taking its
    default (empty string, 0, empty string, 0); productName is trimmed;
    qty is converted to a number as it stands, without stripping, and is 0
    when that is not a number; price goes through numeric normalization
    and is 0 when that yields no number; unit is taken verbatim. *)
Theorem positional_item {engine : RegExpEngine}
  (body : value) (t : jsstring) :
  textOf body = Some t -> t <> [] ->
  exists r,
    handler body = Ok200 r /\
    forall re,
      build (get (templateOf body) "itemsRegex") "gim" = Some re ->
      items r = map itemOf (String_matchAll t re) /\
      forall mm,
        In mm (String_matchAll t re) -> usesNamed mm = false ->
        let cap := definedCaptures mm in
        itemOf mm =
        {| productName := trim (nth 0 cap []);
           qty := orZero (Number (nth 1 cap []));
           unit := nth 2 cap [];
           price := match spec_normalizeNumber (nth 3 cap []) with
                    | Some x => x
                    | None => zero
                    end |}.
Proof.
  intros Ht Hne. exists (extract (templateOf body) t).
  split; [exact (handler_ok body Ht Hne)|].
  intros re Hre. split; [now rewrite extract_items, Hre|].
  intros mm _ Hpos cap. unfold itemOf. rewrite Hpos. fold cap.
  now rewrite quantityOf_first, priceOf_normalized, !orStr_nth.
Qed.

Lemma positional_item_witness :
  textOf bulkRequest = Some (js "Milk 1,000 ml 20.50") /\
  exists r,
    handler bulkRequest = Ok200 r /\
    items r = [ {| productName := js "Milk"; qty := zero; unit := js "ml";
                   price := frac 41 2 |} ].
Proof.
  split; [reflexivity|].
  destruct (@positional_item fragment bulkRequest (js "Milk 1,000 ml 20.50"))
    as (r & Hr & Hitems); [reflexivity | discriminate |].
  exists r. split; [exact Hr|].
  destruct (build (get (templateOf bulkRequest) "itemsRegex") "gim")
    as [re|] eqn:Hre; [|vm_compute in Hre; discriminate Hre].
  destruct (Hitems re eq_refl) as [Hall Hone]. rewrite Hall.
  pose proof Hre as Hre'. vm_compute in Hre'. injection Hre' as <-.
  destruct (String_matchAll (js "Milk 1,000 ml 20.50") _)
    as [|mm [|mm' l]] eqn:Hm;
    [vm_compute in Hm; discriminate Hm | | vm_compute in Hm; discriminate Hm].
  simpl map. rewrite (Hone mm (or_introl eq_refl)).
  - vm_compute in Hm. injection Hm as <-. evaluate.
  - vm_compute in Hm. injection Hm as <-. evaluate.
Defined.

(** C7, on the code.  A match of the items pattern whose named captures
    are [quantity] and [unit] exposes both, and yet takes the positional
    branch: the test of line 179 reads [name], [product], [qty] and
    [price] only.  The quantity becomes the product name, and quantity and
    unit are lost. *)
Theorem quantity_unit_positional :
  exists re mm,
    RegExp_new (js "(?<quantity>\d+) (?<unit>\w+)") (js "gim") = Some re /\
    String_matchAll (js "3 kg") re = [mm] /\
    named mm "quantity" = Some (js "3") /\
    named mm "unit" = Some (js "kg") /\
    spec_usesNamed mm = true /\
    usesNamed mm = false /\
    handler quantityUnitRequest =
    Ok200 {| raw := js "3 kg"; vendorName := []; purchaseDate := [];
             subtotal := None; total := None;
             items := [ {| productName := js "3"; qty := zero; unit := [];
                           price := zero |} ] |}.
Proof.
  do 2 eexists. do 6 (split; [evaluate|]). evaluate.
Qed.

(** C8, as stated: a first capture group of white space only would fall
    back to the whole match trimmed.  It does not: the group is tested
    before it is trimmed, and the vendor name is empty. *)
Lemma blank_group_counterexample :
  exists re m r,
    RegExp_new (js "Acme(\s+)Store") (js "im") = Some re /\
    String_match (js "Acme  Store") re = Some m /\
    elt m 1 = Some (js "  ") /\
    handler spacedVendorRequest = Ok200 r /\
    spec_vendorOf m = js "Acme  Store" /\
    vendorName r = [].
Proof.
  do 3 eexists. do 5 (split; [evaluate|]). evaluate.
Qed.

(** C8, amended.  When the vendor matcher finds a match, vendorName is the
    first capture group trimmed if that group is present and non-empty
    before trimming, else the whole match trimmed (the empty string for an
    empty match); in particular a first capture group of white space only
    yields the empty string. *)
Theorem vendor_field {engine : RegExpEngine} (body : value) (t : jsstring) :
  textOf body = Some t -> t <> [] ->
  exists r,
    handler body = Ok200 r /\
    forall re m,
      build (get (templateOf body) "vendorRegex") "im" = Some re ->
      String_match t re = Some m ->
      vendorName r = match elt m 1 with
                     | Some (c :: s) => trim (c :: s)
                     | _ => trim (whole m)
                     end /\
      (whole m = [] -> elt m 1 = None -> vendorName r = []) /\
      (forall g1, elt m 1 = Some g1 -> g1 <> [] ->
                  forallb isSpace g1 = true -> vendorName r = []).
Proof.
  intros Ht Hne. exists (extract (templateOf body) t).
  split; [exact (handler_ok body Ht Hne)|].
  intros re m Hre Hm.
  rewrite extract_vendorName, Hre, Hm, vendorOf_match.
  split; [reflexivity|]. split.
  - intros Hw ->. now rewrite Hw.
  - intros g1 -> Hg Hsp. destruct g1 as [|c s]; [contradiction|].
    now apply trim_spaces.
Qed.

Lemma vendor_field_witness :
  textOf spacedVendorRequest = Some (js "Acme  Store") /\
  exists r,
    handler spacedVendorRequest = Ok200 r /\ vendorName r = [].
Proof.
  split; [reflexivity|].
  destruct (@vendor_field fragment spacedVendorRequest (js "Acme  Store"))
    as (r & Hr & Hv); [reflexivity | discriminate |].
  exists r. split; [exact Hr|].
  destruct (build (get (templateOf spacedVendorRequest) "vendorRegex") "im")
    as [re|] eqn:Hre; [|vm_compute in Hre; discriminate Hre].
  destruct (String_match (js "Acme  Store") re) as [m|] eqn:Hm.
  - destruct (Hv re m eq_refl Hm) as (_ & _ & Hblank).
    apply (Hblank (js "  ")); [|discriminate|reflexivity].
    vm_compute in Hre. injection Hre as <-.
    vm_compute in Hm. injection Hm as <-. reflexivity.
  - vm_compute in Hre. injection Hre as <-.
    vm_compute in Hm. discriminate Hm.
Defined.

(** C9.  A request whose text is the empty string is answered with the
    400 of a request that has no text, before anything is extracted, and
    no record is ever returned with an empty [raw]. *)
Theorem empty_text_rejected {engine : RegExpEngine} (body : value) :
  (get body "text" = VStr [] \/ get body "text" = VUndefined ->
   handler body = Err400) /\
  (forall r, handler body = Ok200 r -> raw r <> []).
Proof.
  split.
  - intros H. unfold handler, textOf.
    destruct H as [-> | ->]; simpl; now rewrite andb_false_r.
  - intros r Hr. apply handler_inv in Hr as (t & _ & Hne & ->).
    now rewrite extract_raw.
Qed.

Lemma empty_text_rejected_witness :
  handler (request [] receiptTemplate) = Err400 /\
  handler (VObj [prop "template" receiptTemplate]) = Err400 /\
  raw receiptRecord <> [].
Proof.
  split; [|split].
  - apply (proj1 (@empty_text_rejected fragment
                    (request [] receiptTemplate))).
    left. reflexivity.
  - apply (proj1 (@empty_text_rejected fragment
                    (VObj [prop "template" receiptTemplate]))).
    right. reflexivity.
  - apply (proj2 (@empty_text_rejected fragment
                    (request receipt receiptTemplate))).
    evaluate.
Defined.

(** C10.  In every returned record total and subtotal are null or
    strictly positive, and the price of every line item is non-negative:
    the stripping removes any minus sign before the number is read, and a
    number that reads as zero is replaced by null, or by 0 for a price. *)
Theorem amounts_positive {engine : RegExpEngine} (body : value) (r : Parsed) :
  handler body = Ok200 r ->
  (forall x, total r = Some x -> positiveNumber x = true) /\
  (forall x, subtotal r = Some x -> positiveNumber x = true) /\
  Forall (fun it => nonNegative (price it) = true) (items r).
Proof.
  intros Hr. apply handler_inv in Hr as (t & _ & _ & ->).
  rewrite extract_total, extract_subtotal, extract_items.
  repeat split.
  - intros x. destruct (build _ _) as [re|]; [|discriminate].
    destruct (String_match t re) as [m|]; [|discriminate].
    apply orNull_positive.
  - intros x. destruct (build _ _) as [re|]; [|discriminate].
    destruct (String_match t re) as [m|]; [|discriminate].
    apply orNull_positive.
  - destruct (build _ _) as [re|]; [|constructor].
    apply Forall_forall. intros it Hin.
    apply in_map_iff in Hin as (mm & <- & _).
    destruct (itemOf_price mm) as [a ->]. apply priceOf_nonNegative.
Qed.

Lemma amounts_positive_witness :
  (forall x, total receiptRecord = Some x -> positiveNumber x = true) /\
  (forall x, subtotal receiptRecord = Some x -> positiveNumber x = true) /\
  Forall (fun it => nonNegative (price it) = true) (items receiptRecord).
Proof.
  apply (@amounts_positive fragment (request receipt receiptTemplate)).
  evaluate.
Defined.

(** ** Further properties of the template route *)

Lemma jseq_refl (s : jsstring) : jseq s s = true.
Proof.
  induction s as [|c s IH]; simpl; [reflexivity|].
  now rewrite N.eqb_refl.
Qed.

Lemma jseq_eq (a b : jsstring) : jseq a b = true -> a = b.
Proof.
  revert b. induction a as [|x a IH]; intros [|y b]; simpl;
    try discriminate; [reflexivity|].
  intros H. apply andb_true_iff in H as [Hx Hab].
  apply N.eqb_eq in Hx. subst y. f_equal. now apply IH.
Qed.

Lemma trimStart_head (s : jsstring) : startsWithSpace (trimStart s) = false.
Proof.
  induction s as [|c s IH]; simpl; [reflexivity|].
  destruct (isSpace c) eqn:Hc; [exact IH | simpl; exact Hc].
Qed.

Lemma trimStart_id (s : jsstring) :
  startsWithSpace s = false -> trimStart s = s.
Proof. destruct s as [|c s]; simpl; [reflexivity|]. now intros ->. Qed.

Lemma trimStart_snoc (l : jsstring) (c : N) :
  isSpace c = false -> trimStart (l ++ [c]) = trimStart l ++ [c].
Proof.
  intros Hc. induction l as [|a l IH]; simpl; [now rewrite Hc|].
  destruct (isSpace a); [exact IH | reflexivity].
Qed.


(** What [trim] returns neither starts nor ends with white space. *)
Lemma trim_isTrimmed (s : jsstring) : isTrimmed (trim s) = true.
Proof.
  unfold isTrimmed, trim, trimEnd. rewrite rev_involutive, trimStart_head.
  rewrite andb_true_r.
  pose proof (trimStart_head s) as Hh.
  destruct (trimStart s) as [|c t]; [reflexivity|]. simpl in Hh.
  simpl rev. rewrite (trimStart_snoc _ _ Hh), rev_app_distr. simpl.
  now rewrite Hh.
Qed.

Lemma trim_id (s : jsstring) : isTrimmed s = true -> trim s = s.
Proof.
  unfold isTrimmed. intros H. apply andb_true_iff in H as [H1 H2].
  apply negb_true_iff in H1. apply negb_true_iff in H2.
  unfold trim, trimEnd. rewrite (trimStart_id s H1), (trimStart_id _ H2).
  apply rev_involutive.
Qed.



Lemma vendorOf_trimmed (m : option MatchResult) :
  isTrimmed (vendorOf m) = true.
Proof.
  destruct m as [m|]; [|reflexivity]. rewrite vendorOf_match.
  destruct (elt m 1) as [[|c s]|]; apply trim_isTrimmed.
Qed.

Lemma itemOf_trimmed (mm : MatchResult) :
  isTrimmed (productName (itemOf mm)) = true.
Proof.
  unfold itemOf. destruct (usesNamed mm); apply trim_isTrimmed.
Qed.

Lemma orZero_plain (x : number) : isPlainNumber (orZero x) = true.
Proof.
  unfold orZero. destruct x as [|neg|neg [|p] e]; try reflexivity.
  now destruct neg.
Qed.

Lemma itemOf_plain (mm : MatchResult) :
  isPlainNumber (qty (itemOf mm)) = true /\
  isPlainNumber (price (itemOf mm)) = true.
Proof.
  unfold itemOf, quantityOf, priceOf.
  destruct (usesNamed mm); simpl; split;
    repeat match goal with
           | |- context [match ?x with Some _ => _ | None => _ end] =>
               destruct x
           end; apply orZero_plain.
Qed.

(** X1.  The vendor name and every product name of a returned record are
    trimmed: they neither start nor end with white space or with a line
    terminator. *)
Theorem names_trimmed {engine : RegExpEngine} (body : value) (r : Parsed) :
  handler body = Ok200 r ->
  isTrimmed (vendorName r) = true /\
  Forall (fun it => isTrimmed (productName it) = true) (items r).
Proof.
  intros Hr. apply handler_inv in Hr as (t & _ & _ & ->).
  rewrite extract_vendorName, extract_items. split.
  - destruct (build _ _) as [re|]; [apply vendorOf_trimmed | reflexivity].
  - destruct (build _ _) as [re|]; [|constructor].
    apply Forall_forall. intros it Hin.
    apply in_map_iff in Hin as (mm & <- & _). apply itemOf_trimmed.
Qed.

Lemma names_trimmed_witness :
  isTrimmed (vendorName receiptRecord) = true /\
  Forall (fun it => isTrimmed (productName it) = true) (items receiptRecord).
Proof.
  apply (@names_trimmed fragment (request receipt receiptTemplate)).
  evaluate.
Defined.

(** X2.  The quantity and the price of every line item of a returned record
    are numbers: never NaN, and never minus zero. *)
Theorem item_numbers_plain {engine : RegExpEngine}
  (body : value) (r : Parsed) :
  handler body = Ok200 r ->
  Forall (fun it => isPlainNumber (qty it) = true /\
                    isPlainNumber (price it) = true) (items r).
Proof.
  intros Hr. apply handler_inv in Hr as (t & _ & _ & ->).
  rewrite extract_items. destruct (build _ _) as [re|]; [|constructor].
  apply Forall_forall. intros it Hin.
  apply in_map_iff in Hin as (mm & <- & _). apply itemOf_plain.
Qed.

Lemma item_numbers_plain_witness :
  exists r,
    handler bulkRequest = Ok200 r /\
    Forall (fun it => isPlainNumber (qty it) = true /\
                      isPlainNumber (price it) = true) (items r).
Proof.
  eexists. split; [evaluate|].
  apply (@item_numbers_plain fragment bulkRequest). evaluate.
Defined.

(** *** Numeric normalization *)

Lemma isDigit_range (c : N) : isDigit c = true <-> (48 <= c <= 57)%N.
Proof.
  unfold isDigit. rewrite andb_true_iff, !N.leb_le. reflexivity.
Qed.

(** A code unit that the stripping keeps is a digit or the dot. *)
Lemma kept_range (c : N) :
  isDigit c || (c =? 46)%N = true -> (46 <= c <= 57)%N.
Proof.
  intros H. apply orb_true_iff in H as [H|H].
  - apply isDigit_range in H. lia.
  - apply N.eqb_eq in H. lia.
Qed.

Lemma isSpace_printable (c : N) : (33 <= c <= 126)%N -> isSpace c = false.
Proof.
  intros H. unfold isSpace, isWhiteSpace, isLineTerminator.
  repeat match goal with
         | |- context [(c =? ?k)%N] =>
             rewrite (proj2 (N.eqb_neq c k)) by lia
         end.
  rewrite (proj2 (N.leb_gt 8192 c)) by lia. reflexivity.
Qed.

Lemma trim_printable (s : jsstring) :
  Forall (fun c => (33 <= c <= 126)%N) s -> trim s = s.
Proof.
  intros H. apply trim_id. unfold isTrimmed.
  assert (Hs : forall l, Forall (fun c => (33 <= c <= 126)%N) l ->
                         startsWithSpace l = false).
  { intros [|c l] Hl; [reflexivity|]. simpl. apply isSpace_printable.
    now inversion Hl. }
  rewrite (Hs s H), (Hs (rev s)); [reflexivity|].
  apply Forall_forall. intros c Hc. apply in_rev in Hc.
  revert c Hc. now apply Forall_forall.
Qed.

Lemma digitOf_decimal (c : N) :
  StringNumericLiteral.digitOf 10 c
  = if isDigit c then Some (c - 48)%N else None.
Proof.
  unfold StringNumericLiteral.digitOf, isDigit.
  repeat match goal with
         | |- context [(?a <=? ?b)%N] => destruct (N.leb_spec a b)
         end; simpl; try reflexivity; try lia;
    match goal with
    | |- context [(?a <? ?b)%N] => destruct (N.ltb_spec a b)
    end; try reflexivity; lia.
Qed.

(** [digits] reads the longest run of decimal digits at the head of the
    string and leaves the rest. *)
Lemma digits_split (s : jsstring) (acc : N) (cnt : nat) :
  exists pre rest v n,
    StringNumericLiteral.digits 10 s acc cnt = (v, n, rest) /\
    s = pre ++ rest /\ forallb isDigit pre = true /\
    n = (cnt + List.length pre)%nat /\
    v = fold_left (fun a c => (a * 10 + (c - 48))%N) pre acc /\
    match rest with
    | c :: _ => isDigit c = false
    | [] => True
    end.
Proof.
  revert acc cnt. induction s as [|c s IH]; intros acc cnt; simpl.
  - exists [], [], acc, cnt. repeat split. now rewrite Nat.add_0_r.
  - rewrite digitOf_decimal. destruct (isDigit c) eqn:Hc.
    + destruct (IH (acc * 10 + (c - 48))%N (S cnt))
        as (pre & rest & v & n & Hd & Hs & Hp & Hn & Hv & Hr).
      exists (c :: pre), rest, v, n. rewrite Hd. simpl. rewrite Hc, Hp.
      repeat split; [now rewrite Hs | lia | exact Hv | exact Hr].
    + exists [], (c :: s), acc, cnt. repeat split; [|exact Hc].
      now rewrite Nat.add_0_r.
Qed.

(** A string of digits and dots with two dots or more is not a number. *)
Lemma Number_two_dots (t : jsstring) :
  forallb (fun c => isDigit c || (c =? 46)%N) t = true ->
  (2 <= List.length (filter (fun c => (c =? 46)%N) t))%nat ->
  Number t = NaN.
Proof.
  intros Hk Hd.
  assert (Hdot : forall l, forallb (fun c => isDigit c || (c =? 46)%N) l = true ->
            forallb isDigit l = false \/ filter (fun c => (c =? 46)%N) l = []).
  { induction l as [|c l IH]; simpl; [now right|].
    intros H. apply andb_true_iff in H as [Hc Hl].
    destruct (isDigit c) eqn:Hdc; [|now left].
    apply isDigit_range in Hdc.
    rewrite (proj2 (N.eqb_neq c 46)) by lia. simpl. now apply IH. }
  assert (Hpre : forall l, forallb isDigit l = true ->
                           filter (fun c => (c =? 46)%N) l = []).
  { induction l as [|c l IH]; simpl; [reflexivity|].
    intros H. apply andb_true_iff in H as [Hc Hl].
    apply isDigit_range in Hc.
    rewrite (proj2 (N.eqb_neq c 46)) by lia. now apply IH. }
  assert (Hhead : forall c l,
            forallb (fun c => isDigit c || (c =? 46)%N) (c :: l) = true ->
            isDigit c = false -> c = 46%N).
  { intros c l H Hc. simpl in H. rewrite Hc in H. simpl in H.
    apply andb_true_iff in H as [H _]. now apply N.eqb_eq. }
  assert (Hp : Forall (fun c => (33 <= c <= 126)%N) t).
  { apply Forall_forall. intros c Hc.
    rewrite forallb_forall in Hk. apply Hk, kept_range in Hc. lia. }
  unfold Number. rewrite (trim_printable Hp).
  destruct t as [|c r] eqn:Et; [simpl in Hd; lia|]. rewrite <- Et in *.
  assert (Hc : (46 <= c <= 57)%N).
  { apply kept_range. rewrite Et in Hk. simpl in Hk.
    now apply andb_true_iff in Hk as [Hk _]. }
  rewrite (proj2 (N.eqb_neq c 45)), (proj2 (N.eqb_neq c 43)) by lia.
  assert (Hnd : StringNumericLiteral.nonDecimal t = None).
  { rewrite Et. unfold StringNumericLiteral.nonDecimal.
    destruct r as [|p r']; [reflexivity|].
    assert (Hpr : (46 <= p <= 57)%N).
    { apply kept_range. rewrite Et in Hk. simpl in Hk.
      apply andb_true_iff in Hk as [_ Hk].
      now apply andb_true_iff in Hk as [Hk _]. }
    destruct (negb (c =? 48)%N); [reflexivity|].
    rewrite (proj2 (N.eqb_neq p 120)), (proj2 (N.eqb_neq p 88)),
      (proj2 (N.eqb_neq p 111)), (proj2 (N.eqb_neq p 79)),
      (proj2 (N.eqb_neq p 98)), (proj2 (N.eqb_neq p 66)) by lia.
    reflexivity. }
  rewrite Hnd. unfold StringNumericLiteral.unsignedDecimal.
  assert (Hinf : jseq t (js "Infinity") = false).
  { rewrite Et. change (js "Infinity") with (73%N :: js "nfinity").
    simpl. now rewrite (proj2 (N.eqb_neq c 73)) by lia. }
  rewrite Hinf.
  destruct (digits_split t 0 0)
    as (pre & r1 & ip & ni & Hdig & Ht & Hpd & _ & _ & Hr1).
  rewrite Hdig.
  assert (Hk1 : forallb (fun c => isDigit c || (c =? 46)%N) r1 = true).
  { rewrite Ht, forallb_app in Hk. now apply andb_true_iff in Hk as [_ Hk]. }
  assert (Hd1 : (2 <= List.length (filter (fun c => (c =? 46)%N) r1))%nat).
  { rewrite Ht, filter_app, (Hpre pre Hpd) in Hd. exact Hd. }
  destruct r1 as [|d r'] ; [simpl in Hd1; lia|].
  pose proof (Hhead d r' Hk1 Hr1) as ->.
  unfold StringNumericLiteral.fraction. rewrite N.eqb_refl.
  destruct (digits_split r' ip 0)
    as (pre' & r2 & m & nf & Hdig' & Ht' & Hpd' & _ & _ & Hr2).
  rewrite Hdig'.
  assert (Hk2 : forallb (fun c => isDigit c || (c =? 46)%N) r2 = true).
  { apply forallb_forall. intros x Hx. rewrite forallb_forall in Hk1.
    apply Hk1. right. rewrite Ht'. apply in_or_app. now right. }
  assert (Hd2 : (1 <= List.length (filter (fun c => (c =? 46)%N) r2))%nat).
  { simpl in Hd1. rewrite Ht', filter_app, (Hpre pre' Hpd') in Hd1.
    simpl in Hd1. lia. }
  destruct r2 as [|d2 r3]; [simpl in Hd2; lia|].
  pose proof (Hhead d2 r3 Hk2 Hr2) as ->.
  destruct (ni + nf)%nat; reflexivity.
Qed.

(** A non-empty string of decimal digits is read as the integer it spells,
    rounded to binary64: no octal, no sign, no exponent. *)
Lemma Number_digits (t : jsstring) :
  forallb isDigit t = true -> t <> [] -> Number t = num (decimalValue t).
Proof.
  intros Hd Hne.
  assert (Hp : Forall (fun c => (33 <= c <= 126)%N) t).
  { apply Forall_forall. intros c Hc.
    rewrite forallb_forall in Hd. apply Hd, isDigit_range in Hc. lia. }
  unfold Number. rewrite (trim_printable Hp).
  destruct t as [|c r] eqn:Et; [contradiction|]. rewrite <- Et in *.
  assert (Hc : (48 <= c <= 57)%N).
  { apply isDigit_range. rewrite Et in Hd. simpl in Hd.
    now apply andb_true_iff in Hd as [Hd _]. }
  rewrite (proj2 (N.eqb_neq c 45)), (proj2 (N.eqb_neq c 43)) by lia.
  assert (Hnd : StringNumericLiteral.nonDecimal t = None).
  { rewrite Et. unfold StringNumericLiteral.nonDecimal.
    destruct r as [|p r']; [reflexivity|].
    assert (Hpr : (48 <= p <= 57)%N).
    { apply isDigit_range. rewrite Et in Hd. simpl in Hd.
      apply andb_true_iff in Hd as [_ Hd].
      now apply andb_true_iff in Hd as [Hd _]. }
    destruct (negb (c =? 48)%N); [reflexivity|].
    rewrite (proj2 (N.eqb_neq p 120)), (proj2 (N.eqb_neq p 88)),
      (proj2 (N.eqb_neq p 111)), (proj2 (N.eqb_neq p 79)),
      (proj2 (N.eqb_neq p 98)), (proj2 (N.eqb_neq p 66)) by lia.
    reflexivity. }
  rewrite Hnd. unfold StringNumericLiteral.unsignedDecimal.
  assert (Hinf : jseq t (js "Infinity") = false).
  { rewrite Et. change (js "Infinity") with (73%N :: js "nfinity").
    simpl. now rewrite (proj2 (N.eqb_neq c 73)) by lia. }
  rewrite Hinf.
  destruct (digits_split t 0 0)
    as (pre & r1 & ip & ni & Hdig & Ht & Hpd & Hni & Hip & Hr1).
  rewrite Hdig.
  assert (Hr : r1 = []).
  { destruct r1 as [|d r1]; [reflexivity|]. exfalso.
    rewrite Ht, forallb_app in Hd. apply andb_true_iff in Hd as [_ Hd].
    simpl in Hd. now rewrite Hr1 in Hd. }
  subst r1. rewrite app_nil_r in Ht. subst pre. simpl.
  rewrite Hni, Et. simpl. rewrite <- Et.
  unfold Binary64.decimal, num, decimalValue. simpl.
  now rewrite Hip, Z.mul_1_r.
Qed.

Lemma orStr_Some (s : jsstring) : orStr (Some s) None = s.
Proof. now destruct s. Qed.

Lemma stripNumeric_kept (s : jsstring) :
  forallb (fun c => isDigit c || (c =? 46)%N) (stripNumeric s) = true.
Proof.
  rewrite stripNumeric_single. apply forallb_forall. intros c Hc.
  now apply filter_In in Hc.
Qed.

Lemma stripNumeric_dots (s : jsstring) :
  filter (fun c => (c =? 46)%N) (stripNumeric s)
  = filter (fun c => (c =? 46)%N) s.
Proof.
  rewrite stripNumeric_single.
  induction s as [|c s IH]; simpl; [reflexivity|].
  destruct (c =? 46)%N eqn:Hc.
  - rewrite orb_true_r. simpl. now rewrite Hc, IH.
  - rewrite orb_false_r. destruct (isDigit c); simpl; [rewrite Hc|];
      exact IH.
Qed.

Lemma stripNumeric_no_dot (s : jsstring) :
  filter (fun c => (c =? 46)%N) s = [] -> stripNumeric s = filter isDigit s.
Proof.
  rewrite stripNumeric_single.
  induction s as [|c s IH]; simpl; [reflexivity|].
  destruct (c =? 46)%N; [discriminate|]. rewrite orb_false_r.
  intros H. now rewrite (IH H).
Qed.

(** X3.  Numeric normalization reads the digits and the dots of a captured
    string and nothing else: two strings with the same digits and dots in
    the same order give the same total and the same price, whatever
    currency marks, letters, spaces, commas or signs stand around them. *)
Theorem normalization_reads_digits_and_dots (s s' : jsstring) :
  filter (fun c => isDigit c || (c =? 46)%N) s
  = filter (fun c => isDigit c || (c =? 46)%N) s' ->
  numberOrNull s = numberOrNull s' /\ priceOf (Some s) = priceOf (Some s').
Proof.
  intros H. unfold numberOrNull, priceOf.
  now rewrite !orStr_Some, !stripNumeric_single, H.
Qed.

Lemma normalization_reads_digits_and_dots_witness :
  numberOrNull (js "- ₹ 1,234.50 only") = numberOrNull (js "1234.50") /\
  priceOf (Some (js "- ₹ 1,234.50 only")) = priceOf (Some (js "1234.50")).
Proof.
  apply (normalization_reads_digits_and_dots
           (js "- ₹ 1,234.50 only") (js "1234.50")).
  evaluate.
Defined.

(** X4.  A captured string with two dots or more, such as [1.234.567,00],
    is not read as a number: as a total it gives null, as a price 0. *)
Theorem two_dots_not_a_number (s : jsstring) :
  (2 <= List.length (filter (fun c => (c =? 46)%N) s))%nat ->
  numberOrNull s = None /\ priceOf (Some s) = zero.
Proof.
  intros H. unfold numberOrNull, priceOf. rewrite orStr_Some.
  rewrite (Number_two_dots _ (stripNumeric_kept s));
    [split; reflexivity|].
  now rewrite stripNumeric_dots.
Qed.

Lemma two_dots_not_a_number_witness :
  numberOrNull (js "1.234.567,00") = None /\
  priceOf (Some (js "1.234.567,00")) = zero.
Proof.
  apply (two_dots_not_a_number (js "1.234.567,00")).
  vm_compute. lia.
Defined.

(** X5.  A captured string without a dot and with at least one digit is
    read as the integer its digits spell in base ten, whatever stands
    between them: thousands separators and currency marks are dropped,
    leading zeros do not make it octal. *)
Theorem integer_amount (s : jsstring) :
  filter (fun c => (c =? 46)%N) s = [] ->
  filter isDigit s <> [] ->
  numberOrNull s = orNull (num (decimalValue (filter isDigit s))).
Proof.
  intros Hdot Hdig. unfold numberOrNull.
  rewrite (stripNumeric_no_dot s Hdot), Number_digits;
    [reflexivity | | exact Hdig].
  apply forallb_forall. intros c Hc. now apply filter_In in Hc.
Qed.

Lemma integer_amount_witness :
  numberOrNull (js "₹ 01,234/-") = Some (num 1234).
Proof.
  rewrite (integer_amount (js "₹ 01,234/-"));
    [evaluate | reflexivity | discriminate].
Defined.

(** *** The template and the text of a request *)

Section TemplateProperties.

Context {engine : RegExpEngine}.

Lemma build_falsy (v : value) (flags : string) :
  truthy v = false -> build v flags = None.
Proof. intros H. unfold build. now rewrite H. Qed.

(** The value of a field of the record is decided by the matcher of its
    own pattern. *)
Lemma fieldOf_extract (f : field) (tpl tpl' : value) (t : jsstring) :
  build (get tpl (key f)) (flagsOf f) = build (get tpl' (key f)) (flagsOf f) ->
  fieldOf f (extract tpl t) = fieldOf f (extract tpl' t).
Proof.
  intros H. destruct f; cbn [key flagsOf fieldOf] in *.
  - now rewrite !extract_vendorName, H.
  - now rewrite !extract_purchaseDate, H.
  - now rewrite !extract_total, H.
  - now rewrite !extract_subtotal, H.
  - now rewrite !extract_items, H.
Qed.

Lemma atDefault_extract (f : field) (tpl : value) (t : jsstring) :
  build (get tpl (key f)) (flagsOf f) = None -> atDefault f (extract tpl t).
Proof.
  intros H. destruct f; cbn [key flagsOf atDefault] in *.
  - now rewrite extract_vendorName, H.
  - now rewrite extract_purchaseDate, H.
  - now rewrite extract_total, H.
  - now rewrite extract_subtotal, H.
  - now rewrite extract_items, H.
Qed.

(** When [req.body.template] is missing or falsy the body itself is the
    template. *)
Lemma templateOf_flat (body : value) :
  truthy body = true -> truthy (get body "template") = false ->
  templateOf body = body.
Proof. intros Hb Ht. unfold templateOf. now rewrite Hb, Ht. Qed.

End TemplateProperties.

(** X6.  Each field of the record depends on the text and on its own
    pattern only: two requests with the same text whose templates give the
    same value to one pattern field give the same value to the field it
    fills, however their other patterns differ, valid or not. *)
Theorem field_independent {engine : RegExpEngine}
  (f : field) (body body' : value) (t : jsstring) :
  textOf body = Some t -> textOf body' = Some t -> t <> [] ->
  get (templateOf body) (key f) = get (templateOf body') (key f) ->
  exists r r',
    handler body = Ok200 r /\ handler body' = Ok200 r' /\
    fieldOf f r = fieldOf f r'.
Proof.
  intros Ht Ht' Hne Hsame.
  exists (extract (templateOf body) t), (extract (templateOf body') t).
  split; [exact (handler_ok body Ht Hne)|].
  split; [exact (handler_ok body' Ht' Hne)|].
  apply fieldOf_extract. now rewrite Hsame.
Qed.

Lemma field_independent_witness :
  exists r r',
    handler (request receipt receiptTemplate) = Ok200 r /\
    handler (request receipt brokenTotalTemplate) = Ok200 r' /\
    fieldOf Items r = fieldOf Items r'.
Proof.
  apply (@field_independent fragment Items
           (request receipt receiptTemplate)
           (request receipt brokenTotalTemplate) receipt);
    [reflexivity | reflexivity | discriminate | reflexivity].
Defined.

(** X7.  A pattern field whose value is falsy (the empty string, null,
    false, 0) is treated as absent: its field of the record is at the
    default, and the answer is that of any request with the same text
    whose template lacks the field and agrees on the four others. *)
Theorem falsy_pattern_absent {engine : RegExpEngine}
  (f : field) (body : value) (t : jsstring) :
  textOf body = Some t -> t <> [] ->
  truthy (get (templateOf body) (key f)) = false ->
  exists r,
    handler body = Ok200 r /\ atDefault f r /\
    forall body',
      textOf body' = Some t ->
      get (templateOf body') (key f) = VUndefined ->
      (forall g, g <> f ->
         get (templateOf body') (key g) = get (templateOf body) (key g)) ->
      handler body' = Ok200 r.
Proof.
  intros Ht Hne Hf. exists (extract (templateOf body) t).
  pose proof (build_falsy _ (flagsOf f) Hf) as Hb.
  split; [exact (handler_ok body Ht Hne)|].
  split; [now apply atDefault_extract|].
  intros body' Ht' Habs Hsame. rewrite (handler_ok body' Ht' Hne).
  f_equal. apply extract_ext. intros g.
  destruct (field_eq_dec g f) as [->|Hg].
  - now rewrite Habs, Hb.
  - now rewrite (Hsame g Hg).
Qed.

Lemma falsy_pattern_absent_witness :
  exists r,
    handler (request receipt emptyTotalTemplate) = Ok200 r /\
    atDefault Total r /\
    handler (request receipt noTotalTemplate) = Ok200 r.
Proof.
  destruct (@falsy_pattern_absent fragment Total
              (request receipt emptyTotalTemplate) receipt)
    as (r & Hr & Hd & Hall); [reflexivity | discriminate | reflexivity |].
  exists r. split; [exact Hr|]. split; [exact Hd|].
  apply Hall; [reflexivity | reflexivity |].
  intros g Hg. destruct g; try reflexivity. now elim Hg.
Defined.

(** X8.  The patterns may be sent beside the text instead of under
    [template]: when the body has no truthy [template] property it is its
    own template, and a request that carries the same text and the same
    five patterns under [template] gets the same answer. *)
Theorem flat_template {engine : RegExpEngine} (body body' : value) :
  truthy body = true -> truthy (get body "template") = false ->
  textOf body' = textOf body ->
  (forall f, get (templateOf body') (key f) = get body (key f)) ->
  handler body' = handler body.
Proof.
  intros Hb Ht Htext Hsame. unfold handler.
  rewrite Htext, (templateOf_flat body Hb Ht).
  destruct (textOf body) as [t|]; [|reflexivity].
  destruct (isEmpty t); [reflexivity|].
  f_equal. apply extract_ext. intros f. now rewrite Hsame.
Qed.

Lemma flat_template_witness :
  handler (request receipt receiptTemplate) = handler flatReceiptRequest /\
  handler flatReceiptRequest = Ok200 receiptRecord.
Proof.
  split; [|evaluate].
  apply (@flat_template fragment flatReceiptRequest
           (request receipt receiptTemplate));
    try reflexivity.
  intros f. destruct f; reflexivity.
Defined.

(** X9.  The status of the answer is decided by the text alone, never by
    the template: 500 exactly when the text is truthy and [String] throws
    on it (an object with an own [toString] property), 400 exactly when
    the text is missing or falsy or converts to the empty string (an
    empty array), and otherwise 200 with [raw] the converted text. *)
Theorem response_status {engine : RegExpEngine} (body : value) :
  let given := truthy body && truthy (get body "text") in
  let converted := ToString (get body "text") in
  (handler body = Err500 <-> given = true /\ converted = None) /\
  (handler body = Err400 <-> given = false \/ converted = Some []) /\
  (forall r, handler body = Ok200 r <->
             given = true /\ converted = Some (raw r) /\ raw r <> [] /\
             r = extract (templateOf body) (raw r)).
Proof.
  intros given converted. unfold handler, textOf. fold given converted.
  destruct given; [destruct converted as [[|c t]|]|]; simpl.
  - split; [|split]; try intros r; split; try discriminate;
      try (intros [_ H]; discriminate H); auto.
    intros (_ & H & Hne & _). injection H as H. now elim Hne.
  - split; [|split]; try intros r; split; try discriminate;
      try (intros [_ H]; discriminate H);
      try (intros [H|H]; discriminate H).
    + intros [= <-]. rewrite extract_raw. repeat split. discriminate.
    + intros (_ & H & _ & ->). injection H as <-. reflexivity.
  - split; [|split]; try intros r; split; try discriminate; auto;
      try (intros [H|H]; discriminate H).
    intros (_ & H & _). discriminate H.
  - split; [|split]; try intros r; split; try discriminate; auto;
      try (intros [H _]; discriminate H).
Qed.

Lemma response_status_witness :
  handler unprintableTextRequest = Err500 /\
  handler emptyArrayTextRequest = Err400 /\
  handler (VObj [prop "template" receiptTemplate]) = Err400.
Proof.
  split; [|split].
  - apply (proj1 (@response_status fragment unprintableTextRequest)).
    split; reflexivity.
  - apply (proj1 (proj2 (@response_status fragment emptyArrayTextRequest))).
    right. reflexivity.
  - apply (proj1 (proj2 (@response_status fragment
                           (VObj [prop "template" receiptTemplate])))).
    left. reflexivity.
Defined.

(** *** Line items *)

Lemma quantityOf_orStr (a b : option jsstring) :
  quantityOf a b = orZero (Number (orStr a b)).
Proof.
  unfold quantityOf, orStr.
  destruct (pick a); [reflexivity|]. now destruct (pick b).
Qed.

(** X10.  In the named-capture strategy the product name is the [name]
    capture, or the [product] capture when [name] is absent or empty,
    trimmed; the quantity is the [qty] capture, or [quantity] when [qty]
    is absent or empty, converted with [Number] as it stands (0 when that
    is not a number); the unit is the [unit] capture verbatim; the price is
    the [price] capture numerically normalized (0 when that yields no
    number); an absent capture gives the empty string or 0. *)
Theorem named_item {engine : RegExpEngine} (body : value) (t : jsstring) :
  textOf body = Some t -> t <> [] ->
  exists r,
    handler body = Ok200 r /\
    forall re,
      build (get (templateOf body) "itemsRegex") "gim" = Some re ->
      items r = map itemOf (String_matchAll t re) /\
      forall mm,
        In mm (String_matchAll t re) -> usesNamed mm = true ->
        let capture a b :=
          match a with
          | Some (c :: s) => c :: s
          | _ => match b with Some s => s | None => [] end
          end in
        itemOf mm =
        {| productName :=
             trim (capture (named mm "name") (named mm "product"));
           qty :=
             orZero (Number (capture (named mm "qty") (named mm "quantity")));
           unit := capture (named mm "unit") None;
           price :=
             match spec_normalizeNumber (capture (named mm "price") None) with
             | Some x => x
             | None => zero
             end |}.
Proof.
  intros Ht Hne. exists (extract (templateOf body) t).
  split; [exact (handler_ok body Ht Hne)|].
  intros re Hre. split; [now rewrite extract_items, Hre|].
  intros mm _ Hnamed capture.
  assert (Hc : forall a b, orStr a b = capture a b).
  { intros [[|c s]|] [[|d u]|]; reflexivity. }
  unfold itemOf. rewrite Hnamed.
  now rewrite quantityOf_orStr, priceOf_normalized, !Hc.
Qed.

(** X11.  Every match of the items pattern gives one line item, and a match
    that exposes no capture at all gives the item with every field at its
    default. *)
Theorem bare_match_item {engine : RegExpEngine}
  (body : value) (t : jsstring) :
  textOf body = Some t -> t <> [] ->
  exists r,
    handler body = Ok200 r /\
    forall re,
      build (get (templateOf body) "itemsRegex") "gim" = Some re ->
      List.length (items r) = List.length (String_matchAll t re) /\
      forall i mm,
        nth_error (String_matchAll t re) i = Some mm ->
        groups mm = None ->
        Forall (fun c => c = None) (captures mm) ->
        nth_error (items r) i =
        Some {| productName := []; qty := zero; unit := []; price := zero |}.
Proof.
  intros Ht Hne. exists (extract (templateOf body) t).
  split; [exact (handler_ok body Ht Hne)|].
  intros re Hre. rewrite extract_items, Hre.
  split; [apply length_map|].
  intros i mm Hi Hg Hc. rewrite nth_error_map, Hi. simpl. f_equal.
  assert (Hd : definedCaptures mm = []).
  { unfold definedCaptures. induction Hc as [|c l -> _ IH]; [reflexivity|].
    exact IH. }
  unfold itemOf, usesNamed, named. rewrite Hg, Hd. reflexivity.
Qed.

Lemma named_item_witness :
  textOf namedRequest = Some (js "Milk x2 @ 20.50") /\
  exists r,
    handler namedRequest = Ok200 r /\
    items r = [ {| productName := js "Milk"; qty := num 2; unit := [];
                   price := frac 41 2 |} ].
Proof.
  split; [reflexivity|].
  destruct (@named_item fragment namedRequest (js "Milk x2 @ 20.50"))
    as (r & Hr & Hitems); [reflexivity | discriminate |].
  exists r. split; [exact Hr|].
  destruct (build (get (templateOf namedRequest) "itemsRegex") "gim")
    as [re|] eqn:Hre; [|vm_compute in Hre; discriminate Hre].
  destruct (Hitems re eq_refl) as [Hall Hone]. rewrite Hall.
  pose proof Hre as Hre'. vm_compute in Hre'. injection Hre' as <-.
  destruct (String_matchAll (js "Milk x2 @ 20.50") _)
    as [|mm [|mm' l]] eqn:Hm;
    [vm_compute in Hm; discriminate Hm | | vm_compute in Hm; discriminate Hm].
  simpl map. rewrite (Hone mm (or_introl eq_refl)).
  - vm_compute in Hm. injection Hm as <-. evaluate.
  - vm_compute in Hm. injection Hm as <-. evaluate.
Defined.

Lemma bare_match_item_witness :
  textOf bareRequest = Some (js "x-x") /\
  exists r,
    handler bareRequest = Ok200 r /\
    List.length (items r) = 2%nat /\
    nth_error (items r) 1 =
    Some {| productName := []; qty := zero; unit := []; price := zero |}.
Proof.
  split; [reflexivity|].
  destruct (@bare_match_item fragment bareRequest (js "x-x"))
    as (r & Hr & Hitems); [reflexivity | discriminate |].
  exists r. split; [exact Hr|].
  destruct (build (get (templateOf bareRequest) "itemsRegex") "gim")
    as [re|] eqn:Hre; [|vm_compute in Hre; discriminate Hre].
  destruct (Hitems re eq_refl) as [Hlen Hnth].
  pose proof Hre as Hre'. vm_compute in Hre'. injection Hre' as <-.
  split; [rewrite Hlen; evaluate|].
  apply (Hnth 1%nat {| whole := js "x"; captures := []; groups := None |});
    [evaluate | reflexivity | constructor].
Defined.

(** ** The documents of the other routes *)

Lemma lookup_app (k : jsstring) (a b : list (jsstring * value)) :
  lookup k (a ++ b) =
  match lookup k b with
  | Some v => Some v
  | None => lookup k a
  end.
Proof.
  induction a as [|[k' v] a IH]; simpl; [now destruct (lookup k b)|].
  rewrite IH. now destruct (lookup k b).
Qed.

(** A falsy body has no property to copy, so the fall-back to an empty
    object changes nothing. *)
Lemma purchaseDocument_body (body stamp : value) :
  purchaseDocument body stamp
  = ownProperties body ++ [(js "createdAt", stamp)].
Proof.
  unfold purchaseDocument. destruct (truthy body) eqn:Hb; [reflexivity|].
  destruct body as [| |[|]|x|[|c s]|l|fs]; try discriminate; reflexivity.
Qed.

Lemma lookup_cons (k k' : jsstring) (v : value)
  (fs : list (jsstring * value)) :
  lookup k ((k', v) :: fs) =
  match lookup k fs with
  | Some v' => Some v'
  | None => if jseq k k' then Some v else None
  end.
Proof. reflexivity. Qed.

(** X12.  The document stored for a purchase always carries the server
    timestamp as [createdAt], whatever [createdAt] the request body gave,
    and every other property of the body unchanged. *)
Theorem purchase_createdAt (body stamp : value) :
  property (purchaseDocument body stamp) (js "createdAt") = stamp /\
  forall k,
    jseq k (js "createdAt") = false ->
    property (purchaseDocument body stamp) k
    = property (ownProperties body) k.
Proof.
  rewrite purchaseDocument_body. unfold property. split.
  - now rewrite lookup_app, lookup_cons, jseq_refl.
  - intros k Hk. rewrite lookup_app, lookup_cons, Hk. reflexivity.
Qed.

Lemma purchase_createdAt_witness :
  property
    (purchaseDocument
       (VObj [prop "createdAt" (str "1999"); prop "vendor" (str "Acme")])
       VNull) (js "vendor")
  = str "Acme".
Proof.
  rewrite (proj2 (purchase_createdAt
                    (VObj [prop "createdAt" (str "1999");
                           prop "vendor" (str "Acme")]) VNull)
             (js "vendor") eq_refl).
  reflexivity.
Defined.

(** X13.  In the object sent for a stored document, [{ id: d.id, ...d.data() }],
    a stored field named [id] replaces the id of the document, and every
    other field is sent as stored.  So a purchase created from a body with
    its own [id] is answered with that [id], not with the id of the new
    document. *)
Theorem stored_id_shadows (id : jsstring) (data : value) :
  property (withId id data) (js "id")
  = match lookup (js "id") (ownProperties data) with
    | Some v => v
    | None => VStr id
    end /\
  (forall k,
     jseq k (js "id") = false ->
     property (withId id data) k = property (ownProperties data) k) /\
  (forall body stamp v,
     data = VObj (purchaseDocument body stamp) ->
     lookup (js "id") (ownProperties body) = Some v ->
     property (withId id data) (js "id") = v).
Proof.
  unfold property, withId. rewrite lookup_cons, jseq_refl.
  split; [now destruct (lookup _ _)|]. split.
  - intros k Hk. rewrite lookup_cons, Hk. now destruct (lookup _ _).
  - intros body stamp v -> Hv. unfold ownProperties at 1.
    rewrite purchaseDocument_body, lookup_app, lookup_cons, Hv.
    reflexivity.
Qed.

Lemma stored_id_shadows_witness :
  property
    (withId (js "Zx81")
       (VObj (purchaseDocument
                (VObj [prop "id" (str "mine"); prop "total" (VNum (num 5))])
                (str "now"))))
    (js "id") = str "mine".
Proof.
  apply (proj2 (proj2 (stored_id_shadows (js "Zx81")
           (VObj (purchaseDocument
                    (VObj [prop "id" (str "mine");
                           prop "total" (VNum (num 5))])
                    (str "now")))))
           (VObj [prop "id" (str "mine"); prop "total" (VNum (num 5))])
           (str "now") (str "mine")); reflexivity.
Defined.

(** ** Authentication *)

Lemma authDisabled_true (env : option jsstring) :
  authDisabled env = true <-> env = Some (js "true").
Proof.
  unfold authDisabled. destruct env as [v|]; [|split; discriminate].
  split.
  - intros H. now rewrite (jseq_eq _ _ H).
  - intros [= ->]. reflexivity.
Qed.

Lemma startsWith_nil (p : jsstring) : p <> [] -> startsWith [] p = false.
Proof. destruct p; [contradiction | reflexivity]. Qed.

(** After the word Bearer and one space, what is removed is all the white
    space that follows. *)
Lemma stripBearer_Bearer (rest : jsstring) :
  stripBearer (js "Bearer " ++ rest) = trimStart rest.
Proof. reflexivity. Qed.

(** *** The replace of lines 89 and 228 on the engine of the fragment *)

Lemma star_step (c : N) (r b : list N) (cs : list (option jsstring)) :
  JSRegExp.run true false spaceStar
    {| JSRegExp.before := b; JSRegExp.after := c :: r; JSRegExp.caps := cs |}
    Some
  = match
      (if isSpace c || false
       then if (List.length r <? S (List.length r))%nat
            then JSRegExp.run true false spaceStar
                   {| JSRegExp.before := c :: b; JSRegExp.after := r;
                      JSRegExp.caps := cs |} Some
            else None
       else None)
    with
    | Some z => Some z
    | None =>
        Some {| JSRegExp.before := b; JSRegExp.after := c :: r;
                JSRegExp.caps := cs |}
    end.
Proof. reflexivity. Qed.

(** A greedy [\s*] at the end of a pattern consumes the white space at the
    head of the input, all of it. *)
Lemma star_spaces (a b : list N) (cs : list (option jsstring)) :
  exists b',
    JSRegExp.run true false spaceStar
      {| JSRegExp.before := b; JSRegExp.after := a; JSRegExp.caps := cs |}
      Some
    = Some {| JSRegExp.before := b'; JSRegExp.after := trimStart a;
              JSRegExp.caps := cs |}.
Proof.
  revert b. induction a as [|c r IH]; intros b.
  - exists b. reflexivity.
  - rewrite star_step, orb_false_r. simpl trimStart.
    destruct (isSpace c).
    + rewrite (proj2 (Nat.ltb_lt _ _) (Nat.lt_succ_diag_r _)).
      destruct (IH (c :: b)) as [b' ->]. now exists b'.
    + now exists b.
Qed.

Lemma bearer_run (rest : jsstring) :
  JSRegExp.run true false (JSRegExp.root bearerRe)
    {| JSRegExp.before := []; JSRegExp.after := js "Bearer " ++ rest;
       JSRegExp.caps := [] |} Some
  = JSRegExp.run true false spaceStar
      {| JSRegExp.before := rev (js "Bearer "); JSRegExp.after := rest;
         JSRegExp.caps := [] |} Some.
Proof. reflexivity. Qed.

(** On every header that passes the test of lines 85 and 227, the replace
    computed by the engine on the literal of the source is [stripBearer]. *)
Lemma stripBearer_engine (rest : jsstring) :
  removeFirstMatch (js "Bearer " ++ rest) bearerRe
  = stripBearer (js "Bearer " ++ rest).
Proof.
  rewrite stripBearer_Bearer. unfold removeFirstMatch.
  assert (Hs : exists b',
    JSRegExp.search bearerRe [] (js "Bearer " ++ rest)
    = Some ({| JSRegExp.before := []; JSRegExp.after := js "Bearer " ++ rest;
               JSRegExp.caps := [] |},
            {| JSRegExp.before := b'; JSRegExp.after := trimStart rest;
               JSRegExp.caps := [] |})).
  { destruct (star_spaces rest (rev (js "Bearer ")) []) as [b' Hb].
    exists b'. rewrite <- bearer_run in Hb.
    change (js "Bearer " ++ rest) with (66%N :: (js "earer " ++ rest)).
    cbn [JSRegExp.search].
    change (66%N :: (js "earer " ++ rest)) with (js "Bearer " ++ rest).
    change (JSRegExp.ignoreCase bearerRe) with true.
    change (JSRegExp.multiline bearerRe) with false.
    change (JSRegExp.nGroups bearerRe) with 0%nat.
    cbn [repeat]. rewrite Hb. reflexivity. }
  destruct Hs as [b' ->]. reflexivity.
Qed.

Section AuthenticationProperties.

Variable Decoded : Type.
Variable verifyIdToken : jsstring -> option Decoded.

(** The check of the OCR route and the middleware decide alike. *)
Lemma ocrAuthorization_middleware (env header : option jsstring) :
  ocrAuthorization verifyIdToken env header =
  match verifyFirebaseIdToken verifyIdToken env header with
  | Next _ => None
  | Reject401 => Some Ocr401
  | Reject403 => Some Ocr403
  end.
Proof.
  unfold ocrAuthorization, verifyFirebaseIdToken. cbv zeta.
  destruct (authDisabled env); cbn [negb]; [reflexivity|].
  assert (He : isEmpty (authorizationOf header)
               || negb (startsWith (authorizationOf header) (js "Bearer "))
               = negb (startsWith (authorizationOf header) (js "Bearer "))).
  { destruct (authorizationOf header); reflexivity. }
  rewrite He.
  destruct (startsWith (authorizationOf header) (js "Bearer "));
    cbn [negb]; [|reflexivity].
  now destruct (verifyIdToken _).
Qed.

End AuthenticationProperties.

(** X14.  Unless [DISABLE_AUTH] is exactly the string [true], a request whose
    Authorization header is missing, or does not start with the word
    Bearer and a space in this very spelling, is answered 401 by the
    middleware and by the OCR route alike, and the token verifier has no
    say in it. *)
Theorem no_bearer_rejected (Decoded Buffer : Type)
  (verifyIdToken : jsstring -> option Decoded)
  (runTesseractOnBuffer : Buffer -> option jsstring)
  (saveAndSign : jsstring -> Buffer -> option jsstring)
  (env header : option jsstring) (now : N)
  (file : option (UploadedFile Buffer)) :
  env <> Some (js "true") ->
  startsWith (authorizationOf header) (js "Bearer ") = false ->
  verifyFirebaseIdToken verifyIdToken env header = Reject401 /\
  ocrRoute verifyIdToken runTesseractOnBuffer saveAndSign env header now file
  = Ocr401.
Proof.
  intros Henv Hb.
  assert (Hd : authDisabled env = false).
  { destruct (authDisabled env) eqn:H; [|reflexivity].
    now apply authDisabled_true in H. }
  assert (Hm : verifyFirebaseIdToken verifyIdToken env header = Reject401).
  { unfold verifyFirebaseIdToken. cbv zeta. rewrite Hd, Hb.
    cbn [negb]. now rewrite orb_true_r. }
  split; [exact Hm|].
  unfold ocrRoute. now rewrite ocrAuthorization_middleware, Hm.
Qed.

Lemma no_bearer_rejected_witness :
  verifyFirebaseIdToken (fun _ => Some tt) (Some (js "TRUE"))
    (Some (js "bearer abc")) = Reject401 /\
  ocrRoute (fun _ => Some tt) (fun _ : Datatypes.unit => Some (js "Acme"))
    (fun _ _ => None) (Some (js "TRUE")) (Some (js "bearer abc")) 0 None
  = Ocr401.
Proof.
  apply (@no_bearer_rejected Datatypes.unit Datatypes.unit); [discriminate | reflexivity].
Defined.

(** X15.  For a header that starts with the word Bearer and a space, the
    token given to the verifier is what follows, without any white space
    at its head: further spaces after the word are dropped, and the answer
    is [next()] with the decoded token when the verifier accepts this
    token, 403 when it rejects it.  This token is also what the engine of
    the fragment computes for [auth.replace(/^Bearer\s+/i, '')]. *)
Theorem bearer_token (Decoded : Type)
  (verifyIdToken : jsstring -> option Decoded)
  (env : option jsstring) (rest : jsstring) :
  env <> Some (js "true") ->
  verifyFirebaseIdToken verifyIdToken env (Some (js "Bearer " ++ rest))
  = match verifyIdToken (trimStart rest) with
    | Some decoded => Next (Some decoded)
    | None => Reject403
    end /\
  startsWithSpace (trimStart rest) = false /\
  (forall spaces,
    forallb isSpace spaces = true ->
    verifyFirebaseIdToken verifyIdToken env
      (Some (js "Bearer " ++ spaces ++ rest))
    = verifyFirebaseIdToken verifyIdToken env (Some (js "Bearer " ++ rest)))
  /\ removeFirstMatch (js "Bearer " ++ rest) bearerRe = trimStart rest.
Proof.
  intros Henv.
  assert (Hd : authDisabled env = false).
  { destruct (authDisabled env) eqn:H; [|reflexivity].
    now apply authDisabled_true in H. }
  assert (Hall : forall r,
            verifyFirebaseIdToken verifyIdToken env (Some (js "Bearer " ++ r))
            = match verifyIdToken (trimStart r) with
              | Some decoded => Next (Some decoded)
              | None => Reject403
              end).
  { intros r. unfold verifyFirebaseIdToken. rewrite Hd.
    unfold authorizationOf. rewrite stripBearer_Bearer.
    assert (Hs : startsWith (js "Bearer " ++ r) (js "Bearer ") = true)
      by (vm_compute; reflexivity).
    rewrite Hs. reflexivity. }
  split; [apply Hall|]. split; [apply trimStart_head|].
  split; [|now rewrite stripBearer_engine, stripBearer_Bearer].
  intros spaces Hsp. rewrite !Hall.
  assert (Ht : trimStart (spaces ++ rest) = trimStart rest).
  { induction spaces as [|c sp IH]; [reflexivity|]. simpl in *.
    apply andb_true_iff in Hsp as [Hc Hsp]. rewrite Hc. now apply IH. }
  now rewrite Ht.
Qed.

Lemma bearer_token_witness :
  verifyFirebaseIdToken
    (fun tok => if jseq tok (js "abc") then Some tt else None) None
    (Some (js "Bearer " ++ js "   abc"))
  = Next (Some tt).
Proof.
  rewrite (proj1 (@bearer_token Datatypes.unit
                    (fun tok => if jseq tok (js "abc") then Some tt else None)
                    None (js "   abc") ltac:(discriminate))).
  reflexivity.
Defined.

(** X16.  The token check at the head of the OCR route decides as the
    middleware does on the same request, so behind the middleware it never
    rejects: a request that the middleware lets through is not answered
    401 or 403 by the OCR route, as long as the verifier answers the same
    way on the same token. *)
Theorem ocr_check_redundant (Decoded Buffer : Type)
  (verifyIdToken : jsstring -> option Decoded)
  (runTesseractOnBuffer : Buffer -> option jsstring)
  (saveAndSign : jsstring -> Buffer -> option jsstring)
  (env header : option jsstring) (now : N)
  (file : option (UploadedFile Buffer)) (user : option Decoded) :
  verifyFirebaseIdToken verifyIdToken env header = Next user ->
  ocrAuthorization verifyIdToken env header = None /\
  ocrRoute verifyIdToken runTesseractOnBuffer saveAndSign env header now file
  <> Ocr401 /\
  ocrRoute verifyIdToken runTesseractOnBuffer saveAndSign env header now file
  <> Ocr403.
Proof.
  intros Hm.
  assert (Ha : ocrAuthorization verifyIdToken env header = None)
    by now rewrite ocrAuthorization_middleware, Hm.
  split; [exact Ha|]. unfold ocrRoute. rewrite Ha.
  destruct file as [[[buf|] name]|]; try (split; discriminate).
  destruct (runTesseractOnBuffer buf); split; discriminate.
Qed.

Lemma ocr_check_redundant_witness :
  ocrRoute (fun _ => Some tt) (fun _ : Datatypes.unit => Some (js "Acme"))
    (fun _ _ => None) None (Some (js "Bearer abc")) 0 None
  <> Ocr401.
Proof.
  apply (proj1 (proj2 (@ocr_check_redundant Datatypes.unit Datatypes.unit (fun _ => Some tt)
           (fun _ => Some (js "Acme")) (fun _ _ => None) None
           (Some (js "Bearer abc")) 0 None (Some tt) eq_refl))).
Defined.

(** ** The engine of the fragment only moves forward *)

Section Consumption.

Import JSRegExp.

Variable P : N -> Prop.

Lemma reaches_refl (x : mstate) : reaches P x x.
Proof. exists []. repeat split. constructor. Qed.

Lemma reaches_trans (x y z : mstate) :
  reaches P x y -> reaches P y z -> reaches P x z.
Proof.
  intros (w1 & Ha1 & Hb1 & Hp1 & Hc1) (w2 & Ha2 & Hb2 & Hp2 & Hc2).
  exists (w1 ++ w2). repeat split.
  - now rewrite Ha1, Ha2, app_assoc.
  - now rewrite Hb2, Hb1, rev_app_distr, app_assoc.
  - now apply Forall_app.
  - congruence.
Qed.

Lemma setCap_length (i : nat) (v : option jsstring)
  (l : list (option jsstring)) :
  List.length (setCap i v l) = List.length l.
Proof.
  revert i. induction l as [|c l IH]; intros [|i]; simpl; auto.
Qed.

Lemma reset_length (f c : nat) (x : mstate) :
  List.length (caps (reset f c x)) = List.length (caps x).
Proof.
  unfold reset. simpl. generalize (caps x).
  induction (seq f c) as [|i l IH]; intros cs; simpl; [reflexivity|].
  rewrite IH. apply setCap_length.
Qed.

Lemma reaches_reset (f c : nat) (x : mstate) : reaches P x (reset f c x).
Proof.
  exists []. unfold reset. simpl. repeat split; [constructor|].
  apply (reset_length f c x).
Qed.

(** A successful match of a node at [x] calls its continuation at a
    position reached from [x] by consuming what the node can consume. *)
Lemma run_reaches (ic ml : bool) (r : node) :
  consumesOnly ic P r ->
  forall x k z,
    run ic ml r x k = Some z -> exists y, reaches P x y /\ k y = Some z.
Proof.
  induction r
    as [ |a|inv ms| | |neg|a IHa b IHb|a IHa b IHb|i body IH
        |q greedy first count body IH];
    intros HP x k z H.
  - exists x. split; [apply reaches_refl | exact H].
  - cbn [run] in H. destruct (after x) as [|c rest] eqn:Ha; [discriminate|].
    destruct (existsb _ _) eqn:Hm; [|discriminate].
    exists (advance x). split; [|exact H].
    exists [c]. unfold advance. rewrite Ha. simpl. repeat split.
    constructor; [|constructor]. now apply HP.
  - cbn [run] in H. destruct (after x) as [|c rest] eqn:Ha; [discriminate|].
    destruct (xorb _ _) eqn:Hm; [|discriminate].
    exists (advance x). split; [|exact H].
    exists [c]. unfold advance. rewrite Ha. simpl. repeat split.
    constructor; [|constructor]. now apply HP.
  - cbn [run] in H. destruct (atLineStart _ _); [|discriminate].
    exists x. split; [apply reaches_refl | exact H].
  - cbn [run] in H. destruct (atLineEnd _ _); [|discriminate].
    exists x. split; [apply reaches_refl | exact H].
  - cbn [run] in H. destruct (xorb _ _); [|discriminate].
    exists x. split; [apply reaches_refl | exact H].
  - destruct HP as [Pa Pb]. cbn [run] in H.
    apply (IHa Pa) in H as (y & Hxy & H).
    apply (IHb Pb) in H as (y' & Hyy & H).
    exists y'. split; [eapply reaches_trans; eauto | exact H].
  - destruct HP as [Pa Pb]. cbn [run] in H.
    destruct (run ic ml a x k) eqn:Ea.
    + injection H as ->. now apply (IHa Pa) in Ea.
    + now apply (IHb Pb) in H.
  - cbn [run] in H. apply (IH HP) in H as (y & Hxy & H).
    exists (capture i x y). split; [|exact H].
    destruct Hxy as (w & Ha & Hb & Hp & Hc). exists w. unfold capture.
    simpl. repeat split; auto. now rewrite setCap_length.
  - cbn [consumesOnly] in HP. specialize (IH HP).
    cbn [run] in H.
    set (star :=
           fix star (n : nat) (x : mstate) {struct n} : option mstate :=
             if greedy
             then
               match
                 run ic ml body (reset first count x)
                   (fun y : mstate =>
                      if (remaining y <? remaining x)%nat
                      then match n with
                           | O => None
                           | S n' => star n' y
                           end
                      else None)
               with
               | Some z => Some z
               | None => k x
               end
             else
               match k x with
               | Some z => Some z
               | None =>
                   run ic ml body (reset first count x)
                     (fun y : mstate =>
                        if (remaining y <? remaining x)%nat
                        then match n with
                             | O => None
                             | S n' => star n' y
                             end
                        else None)
               end) in H.
    assert (Hstar : forall n x0 z0, star n x0 = Some z0 ->
              exists y, reaches P x0 y /\ k y = Some z0).
    { induction n as [|n IHn]; intros x0 z0 Hs.
      - unfold star in Hs. simpl in Hs. destruct greedy.
        + destruct (run ic ml body (reset first count x0) _) eqn:Er.
          * apply IH in Er as (y & _ & Hy).
            destruct (_ <? _)%nat; discriminate.
          * exists x0. split; [apply reaches_refl | exact Hs].
        + destruct (k x0) eqn:Ek.
          * exists x0. split; [apply reaches_refl|]. now rewrite Ek.
          * apply IH in Hs as (y & _ & Hy).
            destruct (_ <? _)%nat; discriminate.
      - unfold star in Hs. simpl in Hs. fold star in Hs. destruct greedy.
        + destruct (run ic ml body (reset first count x0) _) eqn:Er.
          * injection Hs as ->. apply IH in Er as (y & Hxy & Hy).
            destruct (_ <? _)%nat; [|discriminate].
            apply IHn in Hy as (y' & Hyy & Hk). exists y'.
            split; [|exact Hk].
            eapply reaches_trans; [apply reaches_reset|].
            eapply reaches_trans; eauto.
          * exists x0. split; [apply reaches_refl | exact Hs].
        + destruct (k x0) eqn:Ek.
          * exists x0. split; [apply reaches_refl|]. now rewrite Ek.
          * apply IH in Hs as (y & Hxy & Hy).
            destruct (_ <? _)%nat; [|discriminate].
            apply IHn in Hy as (y' & Hyy & Hk). exists y'.
            split; [|exact Hk].
            eapply reaches_trans; [apply reaches_reset|].
            eapply reaches_trans; eauto. }
    destruct q.
    + now apply Hstar in H.
    + apply IH in H as (y & Hxy & Hy).
      apply Hstar in Hy as (y' & Hyy & Hk).
      exists y'. split; [|exact Hk].
      eapply reaches_trans; [apply reaches_reset|].
      eapply reaches_trans; eauto.
    + destruct greedy.
      * destruct (run ic ml body (reset first count x) _) eqn:Er.
        -- injection H as ->. apply IH in Er as (y & Hxy & Hy).
           destruct (_ =? _)%nat; [discriminate|].
           exists y. split; [|exact Hy].
           eapply reaches_trans; [apply reaches_reset | exact Hxy].
        -- exists x. split; [apply reaches_refl | exact H].
      * destruct (k x) eqn:Ek.
        -- exists x. split; [apply reaches_refl|]. now rewrite Ek.
        -- apply IH in H as (y & Hxy & Hy).
           destruct (_ =? _)%nat; [discriminate|].
           exists y. split; [|exact Hy].
           eapply reaches_trans; [apply reaches_reset | exact Hxy].
Qed.

(** The text of a match is what was consumed. *)
Lemma reaches_whole (x y : mstate) :
  reaches P x y ->
  Forall P (firstn (remaining x - remaining y) (after x)).
Proof.
  intros (w & Ha & _ & Hp & _). unfold remaining. rewrite Ha, length_app.
  replace (List.length w + List.length (after y) - List.length (after y))%nat
    with (List.length w + 0)%nat by lia.
  now rewrite firstn_app_2, firstn_O, app_nil_r.
Qed.

(** A match found by [search] is a match of the root at its start. *)
Lemma search_run (re : regex) (prev rest : list N) (x y : mstate) :
  search re prev rest = Some (x, y) ->
  run (ignoreCase re) (multiline re) (root re) x Some = Some y /\
  caps x = repeat None (nGroups re).
Proof.
  revert prev. induction rest as [|c rest IH]; intros prev H; simpl in H;
    match type of H with
    | match ?r with _ => _ end = _ => destruct r eqn:Er
    end; try discriminate.
  - inversion H. subst. split; [exact Er | reflexivity].
  - inversion H. subst. split; [exact Er | reflexivity].
  - exact (IH _ H).
Qed.

(** Every match of a regex whose root consumes only [P] is made of [P]. *)
Lemma matchesFrom_whole (re : regex) :
  consumesOnly (ignoreCase re) P (root re) ->
  forall n prev rest,
    Forall (fun m => Forall P (whole m)) (matchesFrom n re prev rest).
Proof.
  intros HP. induction n as [|n IH]; intros prev rest; simpl;
    [constructor|].
  destruct (search re prev rest) as [[x y]|] eqn:Es; [|constructor].
  apply search_run in Es as [Er _].
  apply (run_reaches _ _ _ HP) in Er as (y' & Hxy & [= ->]).
  constructor; [exact (reaches_whole Hxy)|].
  destruct (_ =? _)%nat; [|apply IH].
  destruct (after y); [constructor | apply IH].
Qed.

End Consumption.

(** ** The OCR route *)

Lemma isNumericUnit_range (v : N) :
  isNumericUnit v = true -> (44 <= v <= 57)%N.
Proof.
  unfold isNumericUnit. intros H.
  apply orb_true_iff in H as [H|H]; [apply kept_range in H; lia|].
  apply N.eqb_eq in H. lia.
Qed.

(** A numeric code unit stands for itself only, with or without [i]. *)
Lemma variants_numeric (ic : bool) (c v : N) :
  In v (JSRegExp.variants ic c) -> (v <= 57)%N -> v = c.
Proof.
  unfold JSRegExp.variants. intros Hin Hv.
  destruct ic; [|simpl in Hin; intuition].
  destruct ((97 <=? c) && (c <=? 122))%N eqn:Hl.
  - apply andb_true_iff in Hl as [H1 H2].
    apply N.leb_le in H1. apply N.leb_le in H2.
    simpl in Hin. destruct Hin as [<-|[<-|[]]]; [reflexivity | lia].
  - destruct ((65 <=? c) && (c <=? 90))%N eqn:Hu.
    + apply andb_true_iff in Hu as [H1 H2].
      apply N.leb_le in H1. apply N.leb_le in H2.
      simpl in Hin. destruct Hin as [<-|[<-|[]]]; [reflexivity | lia].
    + simpl in Hin. intuition.
Qed.

Lemma numericMember_sound (ic : bool) (c : N) (it : JSRegExp.classItem) :
  numericMember it = true -> JSRegExp.memberMatches ic c it = true ->
  isNumeric c.
Proof.
  destruct it as [a|lo hi|[|]|neg|neg]; simpl; try discriminate.
  - intros Ha Hm. apply existsb_exists in Hm as (v & Hin & Hv).
    apply N.eqb_eq in Hv. subst v.
    pose proof (isNumericUnit_range _ Ha) as Hr.
    rewrite <- (@variants_numeric ic c a Hin); [exact Ha | lia].
  - intros Hr Hm. apply existsb_exists in Hm as (v & Hin & Hv).
    apply andb_true_iff in Hr as [H1 H2].
    apply andb_true_iff in Hv as [H3 H4].
    apply N.leb_le in H1, H2, H3, H4.
    rewrite <- (@variants_numeric ic c v Hin) by lia.
    unfold isNumeric, isNumericUnit.
    rewrite (proj2 (isDigit_range v)) by lia. reflexivity.
  - intros _ Hm. unfold isNumeric, isNumericUnit. now rewrite Hm.
Qed.

Lemma numericNode_sound (ic : bool) (r : JSRegExp.node) :
  numericNode r = true -> consumesOnly ic isNumeric r.
Proof.
  induction r
    as [ |a|inv ms| | |neg|a IHa b IHb|a IHa b IHb|i body IH
        |q greedy first count body IH]; simpl; intros H; auto.
  - intros c Hm. apply existsb_exists in Hm as (v & Hin & Hv).
    apply N.eqb_eq in Hv. subst v.
    pose proof (isNumericUnit_range _ H) as Hr.
    unfold isNumeric.
    rewrite <- (@variants_numeric ic c a Hin); [exact H | lia].
  - destruct inv; [discriminate|]. intros c Hm. simpl in Hm.
    apply existsb_exists in Hm as (it & Hin & Hit).
    rewrite forallb_forall in H.
    exact (@numericMember_sound ic c it (H it Hin) Hit).
  - apply andb_true_iff in H as [Ha Hb]. split; auto.
  - apply andb_true_iff in H as [Ha Hb]. split; auto.
Qed.

Lemma consumesOnly_any (ic : bool) (r : JSRegExp.node) :
  consumesOnly ic (fun _ => True) r.
Proof. induction r; simpl; auto. Qed.

Lemma removeCommas_numeric (w : jsstring) :
  Forall isNumeric w -> removeCommas w = stripNumeric w.
Proof.
  intros H. unfold removeCommas, stripNumeric. f_equal.
  induction H as [|c w Hc _ IH]; simpl; [reflexivity|].
  unfold isNumeric, isNumericUnit in Hc. rewrite Hc. now f_equal.
Qed.

(** Line 250 captures a numeric token. *)
Lemma currencyRe_shape :
  match JSRegExp.root currencyRe with
  | JSRegExp.Seq _ (JSRegExp.Seq _ (JSRegExp.Group O g)) =>
      numericNode g = true
  | _ => False
  end.
Proof. vm_compute. reflexivity. Qed.

Lemma currencyRe_capture (raw : jsstring) (m : MatchResult) (w : jsstring) :
  JSRegExp.matchFirst raw currencyRe = Some m ->
  elt m 1 = Some w -> Forall isNumeric w.
Proof.
  unfold JSRegExp.matchFirst.
  destruct (JSRegExp.search currencyRe [] raw) as [[x y]|] eqn:Es;
    [|discriminate].
  intros [= <-]. apply search_run in Es as [Er Hc].
  assert (Hlen : List.length (JSRegExp.caps x) = 1%nat)
    by (rewrite Hc; reflexivity).
  pose proof currencyRe_shape as Hs.
  destruct (JSRegExp.root currencyRe) as [ | | | | | |a r2| | | ];
    try contradiction.
  destruct r2 as [ | | | | | |b r3| | | ]; try contradiction.
  destruct r3 as [ | | | | | | | |[|i] g| ]; try contradiction.
  cbn [JSRegExp.run] in Er.
  apply (@run_reaches (fun _ => True) _ _ _ (consumesOnly_any _ a)) in Er
    as (y1 & H1 & Er).
  apply (@run_reaches (fun _ => True) _ _ _ (consumesOnly_any _ b)) in Er
    as (y2 & H2 & Er).
  apply (@run_reaches isNumeric _ _ _ (@numericNode_sound _ g Hs)) in Er
    as (y3 & H3 & [= <-]).
  pose proof (@reaches_whole isNumeric _ _ H3) as Hw.
  destruct H1 as (_ & _ & _ & _ & L1). destruct H2 as (_ & _ & _ & _ & L2).
  destruct H3 as (_ & _ & _ & _ & L3).
  unfold elt, JSRegExp.matchResult, JSRegExp.capture. simpl.
  destruct (JSRegExp.caps y3) as [|c0 [|c1 l]] eqn:Ec; simpl in L3;
    try (exfalso; lia).
  simpl. now intros [= <-].
Qed.

Lemma numberTokenRe_whole (raw : jsstring) :
  Forall (fun m => Forall isNumeric (whole m))
    (JSRegExp.matchAll raw numberTokenRe).
Proof.
  apply matchesFrom_whole. apply numericNode_sound. vm_compute.
  reflexivity.
Qed.

Lemma numeric_positive (w : jsstring) (x : number) :
  Forall isNumeric w ->
  orNull (Number (removeCommas w)) = Some x -> positiveNumber x = true.
Proof.
  intros Hw. rewrite (@removeCommas_numeric w Hw). apply orNull_positive.
Qed.

(** What was consumed is a stretch of the input, and the input is the
    same before and after. *)
Lemma reaches_text (P : N -> Prop) (x y : JSRegExp.mstate) :
  reaches P x y ->
  JSRegExp.after x
  = firstn (JSRegExp.remaining x - JSRegExp.remaining y) (JSRegExp.after x)
    ++ JSRegExp.after y /\
  rev (JSRegExp.before y) ++ JSRegExp.after y
  = rev (JSRegExp.before x) ++ JSRegExp.after x.
Proof.
  intros (w & Ha & Hb & _ & _). unfold JSRegExp.remaining.
  rewrite Ha at 1 2 3. rewrite length_app.
  replace (List.length w + List.length (JSRegExp.after y)
           - List.length (JSRegExp.after y))%nat
    with (List.length w + 0)%nat by lia.
  rewrite firstn_app_2, firstn_O, app_nil_r. split; [reflexivity|].
  now rewrite Hb, Ha, rev_app_distr, rev_involutive, <- app_assoc.
Qed.

(** [search] starts a match in the text it was given. *)
Lemma search_text (re : JSRegExp.regex) (prev rest : list N)
  (x y : JSRegExp.mstate) :
  JSRegExp.search re prev rest = Some (x, y) ->
  rev (JSRegExp.before x) ++ JSRegExp.after x = rev prev ++ rest.
Proof.
  revert prev. induction rest as [|c rest IH]; intros prev H; simpl in H;
    match type of H with
    | match ?r with _ => _ end = _ => destruct r eqn:Er
    end; try discriminate.
  - inversion H. reflexivity.
  - inversion H. reflexivity.
  - rewrite (IH _ H). simpl. now rewrite <- app_assoc.
Qed.

(** Every match is a stretch of the text. *)
Lemma matchesFrom_text (re : JSRegExp.regex) (n : nat) :
  forall prev rest,
    Forall (fun m => exists p s, rev prev ++ rest = p ++ whole m ++ s)
      (JSRegExp.matchesFrom n re prev rest).
Proof.
  induction n as [|n IH]; intros prev rest; simpl; [constructor|].
  destruct (JSRegExp.search re prev rest) as [[x y]|] eqn:Es; [|constructor].
  pose proof (search_text _ _ _ Es) as Ht.
  apply search_run in Es as [Er _].
  apply (@run_reaches (fun _ => True) _ _ _ (consumesOnly_any _ _)) in Er
    as (y' & Hxy & [= ->]).
  apply reaches_text in Hxy as [Ha Hb].
  constructor.
  - exists (rev (JSRegExp.before x)), (JSRegExp.after y). simpl.
    now rewrite <- Ht, Ha at 1.
  - rewrite <- Ht, <- Hb.
    destruct (_ =? _)%nat; [|apply IH].
    destruct (JSRegExp.after y) as [|c r] eqn:Ey; [constructor|].
    replace (rev (JSRegExp.before y) ++ c :: r)
      with (rev (c :: JSRegExp.before y) ++ r)
      by (simpl; now rewrite <- app_assoc).
    apply IH.
Qed.

(** A string without a digit is normalized to no number. *)
Lemma no_digit_null (s : jsstring) :
  existsb isDigit s = false -> numberOrNull s = None.
Proof.
  intros Hs.
  assert (Hd : forall c, In c (stripNumeric s) -> c = 46%N).
  { intros c Hin.
    pose proof (stripNumeric_kept s) as Hk. rewrite forallb_forall in Hk.
    specialize (Hk c Hin).
    assert (Hc : In c s).
    { unfold stripNumeric in Hin.
      apply filter_In in Hin as [Hin _]. now apply filter_In in Hin as [Hin _]. }
    assert (Hn : isDigit c = false).
    { destruct (isDigit c) eqn:E; [|reflexivity].
      assert (existsb isDigit s = true)
        by (apply existsb_exists; now exists c).
      congruence. }
    rewrite Hn in Hk. now apply N.eqb_eq in Hk. }
  unfold numberOrNull.
  pose proof (stripNumeric_kept s) as Hk.
  destruct (stripNumeric s) as [|a [|b l]] eqn:E.
  - reflexivity.
  - rewrite (Hd a (or_introl eq_refl)). reflexivity.
  - rewrite (@Number_two_dots (a :: b :: l) Hk); [reflexivity|].
    rewrite (Hd a (or_introl eq_refl)), (Hd b (or_intror (or_introl eq_refl))).
    simpl. lia.
Qed.

Lemma numeric_token (w : jsstring) (x : number) :
  Forall isNumeric w ->
  orNull (Number (removeCommas w)) = Some x ->
  existsb isDigit w = true /\ x = Number (removeCommas w).
Proof.
  intros Hw Hx. split.
  - destruct (existsb isDigit w) eqn:E; [reflexivity|].
    apply no_digit_null in E. unfold numberOrNull in E.
    rewrite <- (@removeCommas_numeric w Hw) in E. congruence.
  - unfold orNull in Hx. destruct (numTruthy _); congruence.
Qed.

Lemma currencyRe_capture_text (raw : jsstring) (m : MatchResult)
  (w : jsstring) :
  JSRegExp.matchFirst raw currencyRe = Some m ->
  elt m 1 = Some w ->
  Forall isNumeric w /\ exists p s, raw = p ++ w ++ s.
Proof.
  unfold JSRegExp.matchFirst.
  destruct (JSRegExp.search currencyRe [] raw) as [[x y]|] eqn:Es;
    [|discriminate].
  intros [= <-]. pose proof (search_text _ _ _ Es) as Ht. simpl in Ht.
  apply search_run in Es as [Er Hc].
  assert (Hlen : List.length (JSRegExp.caps x) = 1%nat)
    by (rewrite Hc; reflexivity).
  pose proof currencyRe_shape as Hs.
  destruct (JSRegExp.root currencyRe) as [ | | | | | |a r2| | | ];
    try contradiction.
  destruct r2 as [ | | | | | |b r3| | | ]; try contradiction.
  destruct r3 as [ | | | | | | | |[|i] g| ]; try contradiction.
  cbn [JSRegExp.run] in Er.
  apply (@run_reaches (fun _ => True) _ _ _ (consumesOnly_any _ a)) in Er
    as (y1 & H1 & Er).
  apply (@run_reaches (fun _ => True) _ _ _ (consumesOnly_any _ b)) in Er
    as (y2 & H2 & Er).
  apply (@run_reaches isNumeric _ _ _ (@numericNode_sound _ g Hs)) in Er
    as (y3 & H3 & [= <-]).
  pose proof (@reaches_whole isNumeric _ _ H3) as Hw.
  pose proof (reaches_text H1) as [_ T1].
  pose proof (reaches_text H2) as [_ T2].
  pose proof (reaches_text H3) as [A3 _].
  destruct H1 as (_ & _ & _ & _ & L1). destruct H2 as (_ & _ & _ & _ & L2).
  destruct H3 as (_ & _ & _ & _ & L3).
  unfold elt, JSRegExp.matchResult, JSRegExp.capture. simpl.
  destruct (JSRegExp.caps y3) as [|c0 [|c1 l]] eqn:Ec; simpl in L3;
    try (exfalso; lia).
  simpl. intros [= <-]. split; [exact Hw|].
  exists (rev (JSRegExp.before y2)), (JSRegExp.after y3).
  now rewrite <- A3, T2, T1.
Qed.

(** X17.  The total that the OCR route reads off the recognized text is null
    or strictly positive: never negative, never zero, never NaN. *)
Theorem ocr_total_positive (raw : jsstring) (x : number) :
  ocrTotal raw = Some x -> positiveNumber x = true.
Proof.
  unfold ocrTotal.
  assert (Hfall :
    match rev (map whole (JSRegExp.matchAll raw numberTokenRe)) with
    | lastNum :: _ => orNull (Number (removeCommas lastNum))
    | [] => None
    end = Some x -> positiveNumber x = true).
  { destruct (rev _) as [|lastNum l] eqn:El; [discriminate|].
    apply numeric_positive.
    assert (Hin : In lastNum (map whole (JSRegExp.matchAll raw numberTokenRe))).
    { apply in_rev. rewrite El. now left. }
    apply in_map_iff in Hin as (m & <- & Hm).
    pose proof (numberTokenRe_whole raw) as Hall.
    rewrite Forall_forall in Hall. now apply Hall. }
  destruct (JSRegExp.matchFirst raw currencyRe) as [m|] eqn:Em;
    [|exact Hfall].
  destruct (pick (elt m 1)) as [m1|] eqn:Ep; [|exact Hfall].
  apply numeric_positive. apply pick_Some in Ep as [Ep _].
  exact (@currencyRe_capture raw m m1 Em Ep).
Qed.

Lemma ocr_total_positive_witness :
  ocrTotal (js "Grand Total: 1,234.50") = Some (frac 12345 10) /\
  positiveNumber (frac 12345 10) = true.
Proof.
  split; [evaluate|].
  apply (ocr_total_positive (js "Grand Total: 1,234.50")). evaluate.
Defined.

(** X18.  A total that the OCR route reports is read off the text: it is the
    number spelled, once the commas are removed, by a stretch of the
    recognized text made of digits, dots and commas with a digit among
    them.  A text without any digit has total null. *)
Theorem ocr_total_token (raw : jsstring) (x : number) :
  ocrTotal raw = Some x ->
  exists p w s,
    raw = p ++ w ++ s /\ Forall isNumeric w /\
    existsb isDigit w = true /\ x = Number (removeCommas w).
Proof.
  unfold ocrTotal.
  assert (Hfall :
    match rev (map whole (JSRegExp.matchAll raw numberTokenRe)) with
    | lastNum :: _ => orNull (Number (removeCommas lastNum))
    | [] => None
    end = Some x ->
    exists p w s,
      raw = p ++ w ++ s /\ Forall isNumeric w /\
      existsb isDigit w = true /\ x = Number (removeCommas w)).
  { destruct (rev _) as [|lastNum l] eqn:El; [discriminate|].
    assert (Hin : In lastNum (map whole (JSRegExp.matchAll raw numberTokenRe))).
    { apply in_rev. rewrite El. now left. }
    apply in_map_iff in Hin as (m & <- & Hm).
    pose proof (numberTokenRe_whole raw) as Hall.
    rewrite Forall_forall in Hall. specialize (Hall m Hm).
    pose proof (matchesFrom_text numberTokenRe (S (List.length raw)) [] raw)
      as Htext.
    rewrite Forall_forall in Htext.
    destruct (Htext m Hm) as (p & s & Hps). simpl in Hps.
    intros Hx. destruct (numeric_token Hall Hx) as [Hd Hn].
    now exists p, (whole m), s. }
  destruct (JSRegExp.matchFirst raw currencyRe) as [m|] eqn:Em;
    [|exact Hfall].
  destruct (pick (elt m 1)) as [m1|] eqn:Ep; [|exact Hfall].
  apply pick_Some in Ep as [Ep _].
  destruct (@currencyRe_capture_text raw m m1 Em Ep) as (Hw & p & s & Hps).
  intros Hx. destruct (numeric_token Hw Hx) as [Hd Hn].
  now exists p, m1, s.
Qed.

Lemma ocr_total_token_witness :
  exists p w s,
    js "Grand Total: 1,234.50" = p ++ w ++ s /\ Forall isNumeric w /\
    existsb isDigit w = true /\ frac 12345 10 = Number (removeCommas w).
Proof.
  apply (@ocr_total_token (js "Grand Total: 1,234.50")). evaluate.
Defined.

(** *** The vendor line *)







(** *** The name of the stored file *)

Lemma isSafeNameChar_underscore : isSafeNameChar 95 = true.
Proof. reflexivity. Qed.

Lemma safeName_chars (name : option jsstring) :
  forallb isSafeNameChar (safeName name) = true.
Proof.
  unfold safeName. apply forallb_forall. intros c Hc.
  apply in_map_iff in Hc as (d & <- & _).
  destruct (isSafeNameChar d) eqn:Hd; [exact Hd | reflexivity].
Qed.

Lemma safeName_nonempty (name : option jsstring) : safeName name <> [].
Proof.
  unfold safeName. destruct (pick name) as [n|] eqn:Hp.
  - apply pick_Some in Hp as [_ Hn]. now destruct n.
  - discriminate.
Qed.

Lemma clean_again (l : jsstring) :
  forallb isSafeNameChar l = true ->
  map (fun c => if isSafeNameChar c then c else 95%N) l = l.
Proof.
  induction l as [|c l IH]; simpl; [reflexivity|].
  intros H. apply andb_true_iff in H as [Hc Hl].
  now rewrite Hc, (IH Hl).
Qed.

(** A literal of ASCII characters is its characters. *)
Lemma decode_ascii (l : list N) :
  Forall (fun b => (b < 128)%N) l -> flat_map Utf8.units (Utf8.decode l) = l.
Proof.
  induction 1 as [|b l Hb _ IH]; simpl; [reflexivity|].
  rewrite (proj2 (N.ltb_lt b 128) Hb). simpl. unfold Utf8.units at 1.
  rewrite (proj2 (N.ltb_lt b 65536)) by lia. simpl. now rewrite IH.
Qed.

Lemma string_of_uint_digits (u : Decimal.uint) :
  Forall (fun b => (48 <= b <= 57)%N)
    (map N_of_ascii (list_ascii_of_string (NilEmpty.string_of_uint u))).
Proof.
  induction u; simpl; constructor; try assumption; vm_compute;
    split; discriminate.
Qed.

(** The decimal digits of a whole number are digits. *)
Lemma decimalString_digits (z : Z) :
  forallb isDigit (NumberToString.decimalString z) = true.
Proof.
  unfold NumberToString.decimalString, js.
  pose proof (string_of_uint_digits (N.to_uint (Z.to_N z))) as H.
  rewrite decode_ascii.
  - apply forallb_forall. intros c Hc. apply isDigit_range.
    rewrite Forall_forall in H. now apply H.
  - eapply Forall_impl; [|exact H]. simpl. intros b Hb. lia.
Qed.

(** X20.  The name under which an uploaded file is stored is the folder
    [ocr_uploads/] followed by letters, digits, dots, underscores and
    hyphens only, whatever the name the client gave: no slash, no
    backslash, no white space, so the object stays in that folder.  The
    cleaned name keeps the length of the given one and cleaning it again
    changes nothing. *)
Theorem upload_name_safe (now : N) (name : option jsstring) :
  (exists file,
     uploadName now name = js "ocr_uploads/" ++ file /\
     forallb isSafeNameChar file = true /\ ~ In 47%N file) /\
  (forall n, name = Some n -> n <> [] ->
             List.length (safeName name) = List.length n) /\
  safeName (Some (safeName name)) = safeName name.
Proof.
  split; [|split].
  - exists (NumberToString.decimalString (Z.of_N now)
            ++ 95%N :: safeName name).
    split; [reflexivity|].
    assert (Hs : forallb isSafeNameChar
                   (NumberToString.decimalString (Z.of_N now)
                    ++ 95%N :: safeName name) = true).
    { rewrite forallb_app. simpl. rewrite safeName_chars, andb_true_r.
      apply forallb_forall. intros c Hc.
      pose proof (decimalString_digits (Z.of_N now)) as Hd.
      rewrite forallb_forall in Hd. unfold isSafeNameChar.
      rewrite (Hd c Hc). now rewrite orb_true_r. }
    split; [exact Hs|]. intros H47.
    rewrite forallb_forall in Hs. now apply Hs in H47.
  - intros n -> Hn. unfold safeName.
    destruct n as [|c n]; [contradiction|]. simpl. now rewrite length_map.
  - assert (Hp : pick (Some (safeName name)) = Some (safeName name)).
    { pose proof (safeName_nonempty name) as Hn.
      now destruct (safeName name). }
    unfold safeName at 1. rewrite Hp.
    apply clean_again, safeName_chars.
Qed.

Lemma upload_name_safe_witness :
  uploadName 1730000000000 (Some (js "../../etc/pass wd.png"))
  = js "ocr_uploads/1730000000000_.._.._etc_pass_wd.png" /\
  List.length (safeName (Some (js "../../etc/pass wd.png")))
  = List.length (js "../../etc/pass wd.png").
Proof.
  split; [evaluate|].
  apply (proj1 (proj2 (upload_name_safe 0
                         (Some (js "../../etc/pass wd.png"))))
           (js "../../etc/pass wd.png")); [reflexivity | discriminate].
Defined.

(** X21.  The storage of the uploaded file and the clock have no say in the
    answer of the OCR route beyond the [url]: with any two behaviours of
    the storage calls, failing or not, and at any two times, the same
    request gets the same status, and on 200 the same parsed record and
    the same raw text, which the record echoes as [raw]. *)
Theorem storage_failure_not_fatal (Decoded Buffer : Type)
  (verifyIdToken : jsstring -> option Decoded)
  (runTesseractOnBuffer : Buffer -> option jsstring)
  (saveAndSign saveAndSign' : jsstring -> Buffer -> option jsstring)
  (env header : option jsstring) (now now' : N)
  (file : option (UploadedFile Buffer)) :
  match
    ocrRoute verifyIdToken runTesseractOnBuffer saveAndSign env header now
      file,
    ocrRoute verifyIdToken runTesseractOnBuffer saveAndSign' env header now'
      file
  with
  | Ocr200 p text _, Ocr200 p' text' _ =>
      p = p' /\ text = text' /\ raw p = text
  | Ocr400, Ocr400 | Ocr401, Ocr401 | Ocr403, Ocr403 | Ocr500, Ocr500 => True
  | _, _ => False
  end.
Proof.
  unfold ocrRoute, ocrAuthorization. cbv zeta.
  destruct (negb (authDisabled env)).
  - destruct (negb (startsWith (authorizationOf header) (js "Bearer ")));
      [exact I|].
    destruct (verifyIdToken _); [|exact I].
    destruct file as [[[buf|] name]|]; try exact I.
    destruct (runTesseractOnBuffer buf); [repeat split | exact I].
  - destruct file as [[[buf|] name]|]; try exact I.
    destruct (runTesseractOnBuffer buf); [repeat split | exact I].
Qed.
